(** * LiteX-M2SDR: the AD9361 RFIC streaming datapath

    A shallow embedding of [gateware/ad9361/core.py] (class [AD9361RFIC], with
    [add_prbs] and [add_agc]) and of [gateware/ad9361/cmosphy.py] (class
    [AD9361CMOSPHY]).

    Migen signals are modelled as [Z] values together with their declared
    width; a combinatorial block is a function from the signals it reads to
    the signals it drives, a synchronous block is a step function on the
    registers of its clock domain.  Registers start at their reset value
    (0 unless the source says otherwise). *)

From Stdlib Require Import ZArith Lia List Bool String.
From Stdlib Require Import Ascii.
Import ListNotations.
Local Open Scope Z_scope.
Local Open Scope bool_scope.

(* ================================================================== *)
(** * Migen value semantics *)

Module Migen.

(** The value a [w]-bit signal holds after [sig.eq(v)]: the low [w] bits. *)
Definition trunc (w v : Z) : Z := Z.land v (Z.ones w).

(** [v[lo:hi]], bits [lo] (included) to [hi] (excluded). *)
Definition slice (v lo hi : Z) : Z := Z.land (Z.shiftr v lo) (Z.ones (hi - lo)).

(** [d[lo:hi].eq(v)]: the bits [lo..hi-1] of [d] are driven by [v], the
    others are left as they are. *)
Definition set_slice (d lo hi v : Z) : Z :=
  Z.lor (Z.land d (Z.lnot (Z.shiftl (Z.ones (hi - lo)) lo)))
        (Z.shiftl (trunc (hi - lo) v) lo).

(** [Cat(a, b)] where [a] is [w] bits wide: [a] in the low bits. *)
Definition Cat (w a b : Z) : Z := Z.lor (trunc w a) (Z.shiftl b w).

(** [Replicate(b, n)] of a one-bit value. *)
Definition Replicate (b : bool) (n : Z) : Z := if b then Z.ones n else 0.

(** [v[-1]] of a [w]-bit value. *)
Definition msb (w v : Z) : bool := Z.testbit v (w - 1).

(** The integer a [w]-bit two's complement pattern stands for. *)
Definition to_signed (w v : Z) : Z := if msb w v then v - 2 ^ w else v.

(** The [w]-bit two's complement pattern of an integer. *)
Definition of_signed (w x : Z) : Z := x mod 2 ^ w.

End Migen.
Import Migen.

(* ================================================================== *)
(** * gateware/ad9361/cmosphy.py *)

Module CMOSPHY.

(** [modes = {"2R2T": 0, "1R1T": 1}] *)
Definition modes (name : string) : option Z :=
  if String.eqb name "2R2T" then Some 0
  else if String.eqb name "1R1T" then Some 1
  else None.

(** [phy_layout()]: the payload of a PHY stream endpoint, four fields. *)
Record phy_payload := PhyPayload { ia : Z; qa : Z; ib : Z; qb : Z }.

(** Width of every field of [phy_layout()]. *)
Definition phy_width : Z := 12.

(** What the producer of a PHY endpoint drives ([ready] travels the other
    way and is kept apart). *)
Record phy_stream := PhyStream { p_valid : bool; p_data : phy_payload }.

Definition payload0 : phy_payload := PhyPayload 0 0 0 0.

(** Every field of a PHY payload is a [phy_width]-bit value. *)
Definition payload_ok (p : phy_payload) : Prop :=
  (0 <= ia p < 2 ^ phy_width) /\ (0 <= qa p < 2 ^ phy_width) /\
  (0 <= ib p < 2 ^ phy_width) /\ (0 <= qb p < 2 ^ phy_width).

(** [self.control]: the CSR storage, written from the host side. *)
Record control := Control { c_mode : bool; c_loopback : bool }.

(** What a rising edge of the [rfic] clock samples: the domain's reset, the
    outputs of the IDDR primitives on [rx_frame_p] and [rx_data] (the 12-bit
    signals [rx_data_i] and [rx_data_q]), the sink as driven by the producer
    and the source's [ready]. *)
Record rfic_in := RficIn {
  rst          : bool;
  rx_frame     : bool;
  rx_data_i    : Z;
  rx_data_q    : Z;
  sink         : phy_stream;
  source_ready : bool
}.

(** The registers.  [mode_regs] and [loopback_regs] are the two stages of
    the [MultiReg] synchronisers (clocked by [sys]); the others belong to
    the [rfic] domain.  The [tx_*] registers are declared under the
    [if False:] of line 144. *)
Record state := State {
  mode_regs         : bool * bool;
  loopback_regs     : bool * bool;
  rx_frame_d        : bool;
  rx_frame_rising_d : bool;
  rx_data_ia        : Z;
  rx_data_qa        : Z;
  rx_data_ib        : Z;
  rx_data_qb        : Z;
  source            : phy_stream;
  tx_cnt            : Z;
  tx_data_valid     : bool;
  tx_data           : phy_payload
}.

Definition reset_state : state :=
  State (false, false) (false, false) false false 0 0 0 0
        (PhyStream false payload0) 0 false payload0.

(** Line 144, [if False:]: the TX block is never elaborated. *)
Definition tx_elaborated : bool := false.

(** Outputs of the synchronisers. *)
Definition mode (s : state) : bool := snd (mode_regs s).
Definition loopback (s : state) : bool := snd (loopback_regs s).

(** [rx_frame_rising.eq(rx_frame & ~rx_frame_d)] *)
Definition rx_frame_rising (s : state) (i : rfic_in) : bool :=
  rx_frame i && negb (rx_frame_d s).

(** [tx_ce.eq(tx_cnt == 3)] *)
Definition tx_ce (s : state) : bool := tx_cnt s =? 3.

(** [sink.ready]: driven by [tx_ce] inside the TX block only; a signal
    nothing drives keeps its reset value 0. *)
Definition sink_ready (s : state) : bool :=
  if tx_elaborated then tx_ce s else false.

(** A [sys] clock edge: the synchronisers shift. *)
Definition sys_step (s : state) (c : control) : state :=
  State (c_mode c, fst (mode_regs s)) (c_loopback c, fst (loopback_regs s))
        (rx_frame_d s) (rx_frame_rising_d s)
        (rx_data_ia s) (rx_data_qa s) (rx_data_ib s) (rx_data_qb s)
        (source s) (tx_cnt s) (tx_data_valid s) (tx_data s).

(** The source registers after an [rfic] edge: "Drive Source" (lines
    135-141), overridden by the loopback statements of the TX block, which
    come later in the same domain, where that block is elaborated. *)
Definition next_source (s : state) (i : rfic_in) : phy_stream :=
  let driven :=
    PhyStream true
      (PhyPayload (rx_data_ia s) (rx_data_qa s) (rx_data_ib s) (rx_data_qb s)) in
  if tx_elaborated && loopback s then
    PhyStream (p_valid (sink i) && sink_ready s)
      (PhyPayload (trunc phy_width (ia (p_data (sink i))))
                  (trunc phy_width (qa (p_data (sink i))))
                  (trunc phy_width (ib (p_data (sink i))))
                  (trunc phy_width (qb (p_data (sink i)))))
  else driven.

(** The TX data registers after an [rfic] edge (lines 158-176). *)
Definition next_tx_data (s : state) (i : rfic_in) : phy_payload :=
  if tx_ce s then
    if p_valid (sink i) then
      PhyPayload (trunc phy_width (ia (p_data (sink i))))
                 (trunc phy_width (qa (p_data (sink i))))
                 (trunc phy_width (ib (p_data (sink i))))
                 (trunc phy_width (qb (p_data (sink i))))
    else payload0
  else tx_data s.

(** An [rfic] clock edge.  Every register of the domain takes its reset
    value while the domain's reset is asserted. *)
Definition rfic_step (s : state) (i : rfic_in) : state :=
  if rst i then
    State (mode_regs s) (loopback_regs s) false false 0 0 0 0
          (PhyStream false payload0) 0 false payload0
  else
    State (mode_regs s) (loopback_regs s)
          (rx_frame i)
          (rx_frame_rising s i)
          (trunc phy_width (rx_data_i i))
          (trunc phy_width (rx_data_q i))
          (trunc phy_width 0)
          (trunc phy_width 0)
          (next_source s i)
          (if tx_elaborated then trunc 2 (tx_cnt s + 1) else tx_cnt s)
          (if tx_elaborated then
             (if tx_ce s then true else if tx_ce s then false else tx_data_valid s)
           else tx_data_valid s)
          (if tx_elaborated then next_tx_data s i else tx_data s).

(** The two clocks are unrelated: a run is any interleaving of their edges. *)
Inductive tick := Sys (c : control) | Rfic (i : rfic_in).

Definition step (s : state) (t : tick) : state :=
  match t with
  | Sys c  => sys_step s c
  | Rfic i => rfic_step s i
  end.

Definition run (s : state) (ts : list tick) : state := fold_left step ts s.

(** The same ticks with the host's control word cleared and the sink idle. *)
Definition quiet (t : tick) : tick :=
  match t with
  | Sys _  => Sys (Control false false)
  | Rfic i => Rfic (RficIn (rst i) (rx_frame i) (rx_data_i i) (rx_data_q i)
                           (PhyStream false payload0) (source_ready i))
  end.

(** The same ticks with the source's [ready] forced to [b]. *)
Definition with_ready (b : bool) (t : tick) : tick :=
  match t with
  | Sys c  => Sys c
  | Rfic i => Rfic (RficIn (rst i) (rx_frame i) (rx_data_i i) (rx_data_q i)
                           (sink i) b)
  end.

(** The [rfic] reset is not asserted on this tick. *)
Definition reset_released (t : tick) : bool :=
  match t with
  | Sys _  => true
  | Rfic i => negb (rst i)
  end.

End CMOSPHY.

Import CMOSPHY.

(* ================================================================== *)
(** * gateware/ad9361/bitmode.py *)

Module BitMode.

(** Modelled from the spec: [gateware/ad9361/bitmode.py] ([_sign_extend],
    [AD9361TXBitMode], [AD9361RXBitMode]) is not among the sources.  The spec
    (4.4) has sign extension "replicate sign bit upward": a [w]-bit value is
    extended to [nbits] by repeating its top bit. *)
Definition _sign_extend (w data nbits : Z) : Z :=
  Cat w data (Replicate (msb w data) (nbits - w)).

(** Modelled from the spec: a Sample (3) is "four signed integers (IA, QA,
    IB, QB), each logically 12 bits, always carried sign-extended to 16
    bits". *)
Record Sample := MkSample { IA : Z; QA : Z; IB : Z; QB : Z }.

(** The fields fit the 16-bit carrier. *)
Definition carried (s : Sample) : Prop :=
  (- 2 ^ 15 <= IA s < 2 ^ 15) /\ (- 2 ^ 15 <= QA s < 2 ^ 15) /\
  (- 2 ^ 15 <= IB s < 2 ^ 15) /\ (- 2 ^ 15 <= QB s < 2 ^ 15).

(** Modelled from the spec: the Sample Word layout (6), "four 16-bit fields
    [IA, QA, IB, QB] from LSB to MSB". *)
Definition pack16 (s : Sample) : Z :=
  set_slice (set_slice (set_slice (set_slice 0
    0 16 (of_signed 16 (IA s))) 16 32 (of_signed 16 (QA s)))
    32 48 (of_signed 16 (IB s))) 48 64 (of_signed 16 (QB s)).

Definition unpack16 (w : Z) : Sample :=
  MkSample (to_signed 16 (slice w 0 16)) (to_signed 16 (slice w 16 32))
           (to_signed 16 (slice w 32 48)) (to_signed 16 (slice w 48 64)).

(** Modelled from the spec (4.4): in 8-bit mode a field is cut to its top 8
    bits, "arithmetic shift right by the precision difference" (12 - 8). *)
Definition quantize8 (x : Z) : Z := Z.shiftr x (12 - 8).

(** Modelled from the spec (3, 4.4): two Samples per word in 8-bit mode, eight
    8-bit slots, the first Sample in the low half. *)
Definition pack8 (s0 s1 : Sample) : Z :=
  set_slice (set_slice (set_slice (set_slice
  (set_slice (set_slice (set_slice (set_slice 0
    0 8 (of_signed 8 (quantize8 (IA s0)))) 8 16 (of_signed 8 (quantize8 (QA s0))))
    16 24 (of_signed 8 (quantize8 (IB s0)))) 24 32 (of_signed 8 (quantize8 (QB s0))))
    32 40 (of_signed 8 (quantize8 (IA s1)))) 40 48 (of_signed 8 (quantize8 (QA s1))))
    48 56 (of_signed 8 (quantize8 (IB s1)))) 56 64 (of_signed 8 (quantize8 (QB s1))).

(** Modelled from the spec (4.4): "sign-extend each packed 8-bit truncated
    value back to 16 bits". *)
Definition unpack8 (w : Z) : list Sample :=
  [ MkSample (to_signed 8 (slice w 0 8)) (to_signed 8 (slice w 8 16))
             (to_signed 8 (slice w 16 24)) (to_signed 8 (slice w 24 32));
    MkSample (to_signed 8 (slice w 32 40)) (to_signed 8 (slice w 40 48))
             (to_signed 8 (slice w 48 56)) (to_signed 8 (slice w 56 64)) ].

Fixpoint pack8_stream (l : list Sample) : list Z :=
  match l with
  | s0 :: s1 :: r => pack8 s0 s1 :: pack8_stream r
  | _ => []
  end.

(** The [mode] field of the [_bitmode] CSR (core.py, lines 122-127): 0 is the
    12-bit mode (16-bit fields), 1 the 8-bit mode. *)
Definition _16_BIT_MODE : bool := false.
Definition _8_BIT_MODE : bool := true.

(** Modelled from the spec (4.4), transmit direction (pack): the Samples of a
    stream to its Sample Words.  In 8-bit mode a Sample left without a partner
    waits in the converter. *)
Definition AD9361TXBitMode (mode : bool) (l : list Sample) : list Z :=
  if mode then pack8_stream l else map pack16 l.

(** Modelled from the spec (4.4), receive direction (unpack). *)
Definition AD9361RXBitMode (mode : bool) (l : list Z) : list Sample :=
  if mode then flat_map unpack8 l else map unpack16 l.

End BitMode.
Import BitMode.

(* ================================================================== *)
(** * gateware/ad9361/prbs.py and gateware/ad9361/agc.py: interfaces *)

(** [gateware/ad9361/prbs.py] is not among the sources.  [core.py] uses the
    generator through [reset] (added by [ResetInserter]), [ce] and [o], and a
    checker through [i], [ce] and [synced]; what they compute is left open. *)
Class PRBSGenerator := {
  gen_state : Type;
  gen_reset : gen_state;
  gen_next  : gen_state -> bool -> gen_state;   (* one clock edge, given [ce] *)
  gen_o     : gen_state -> Z
}.

(** A generator whose output is stuck at [v], to try the wiring on. *)
Definition stuck_generator (v : Z) : PRBSGenerator := {|
  gen_state := unit;
  gen_reset := tt;
  gen_next g _ := g;
  gen_o _ := v
|}.

Class PRBSChecker := {
  chk_state  : Type;
  chk_reset  : chk_state;
  chk_next   : chk_state -> bool -> Z -> chk_state;   (* given [ce] and [i] *)
  chk_synced : chk_state -> bool
}.

(** [gateware/ad9361/agc.py] is not among the sources.  [core.py] builds a
    counter from [ce] and [iqs] alone; whatever an instance holds of its own
    besides (a threshold, a clear) is inside [agc.py] and is not part of this
    interface. *)
Class SaturationCounter := {
  sat_state : Type;
  sat_reset : sat_state;
  sat_next  : sat_state -> bool -> list Z -> sat_state   (* given [ce] and [iqs] *)
}.

Module AGC.

(** Modelled from the spec: the full-scale test of [AGCSaturationCount]
    (agc.py, not among the sources).  The spec (4.8) counts the times "I or Q
    reaches the representable extreme value (full positive or full negative
    scale)"; a field is a 12-bit sample carried sign-extended in 16 bits. *)
Definition full_scale (iq : Z) : bool :=
  (to_signed 16 iq =? 2 ^ 11 - 1) || (to_signed 16 iq =? - 2 ^ 11).

(** Modelled from the spec: [AGCSaturationCount] (agc.py, not among the
    sources), a free-running accumulator (4.8) that goes up by one on an
    enabled cycle whose I or Q is at full scale, and is never cleared by the
    component itself. *)
#[export] Instance AGCSaturationCount : SaturationCounter := {|
  sat_state := Z;
  sat_reset := 0;
  sat_next count ce iqs := if ce && existsb full_scale iqs then count + 1 else count
|}.

End AGC.

(* ================================================================== *)
(** * gateware/ad9361/core.py *)

Module Core.

(** [dma_layout(64)]: what the producer of a 64-bit stream endpoint drives. *)
Record dma_stream := DmaStream { d_valid : bool; d_data : Z }.

(** A word moves on the cycle where [valid] and [ready] both hold. *)
Definition transfer (valid ready : bool) : bool := valid && ready.

(** ** [AD9361RFIC.__init__] *)

(** Outcome of running a constructor: the object, or the exception raised. *)
Inductive outcome (A : Type) := Built (a : A) | Raised (exn : string).
Arguments Built {A} a.
Arguments Raised {A} exn.

Inductive phy_class := AD9361PHY | AD9361CMOSPHY.

(** Lines 151-154: the lookup of [phy_mode] in the dictionary of PHY classes. *)
Definition phy_cls (phy_mode : string) : outcome phy_class :=
  if String.eqb phy_mode "lvds" then Built AD9361PHY
  else if String.eqb phy_mode "cmos" then Built AD9361CMOSPHY
  else Raised "KeyError".

(** The control signals and the CSR fields the datapath names. *)
Record controls := Controls {
  enable_datapath : bool;   (* line 85 *)
  bitmode         : bool;   (* [_bitmode.fields.mode] *)
  prbs_tx_enable  : bool    (* [prbs_tx.fields.enable], see [add_prbs] *)
}.

(** [enable_datapath = Signal(reset=1)]; CSR storages reset to 0. *)
Definition controls_reset : controls := Controls true false false.

(** The elaborated module: its PHY.  Whatever the PHY class, the statements
    after line 155 are the same: both CDCs, both pipelines and the TX and RX
    connections to [phy.sink] and [phy.source]. *)
Record rfic := MkRfic { phy : phy_class }.

Definition AD9361RFIC (phy_mode : string) : outcome rfic :=
  match phy_cls phy_mode with
  | Built cls  => Built (MkRfic cls)
  | Raised exn => Raised exn
  end.

(** Lines 178-179: both converters read the same CSR field. *)
Definition tx_bitmode (c : controls) : list Sample -> list Z :=
  AD9361TXBitMode (bitmode c).
Definition rx_bitmode (c : controls) : list Z -> list Sample :=
  AD9361RXBitMode (bitmode c).

(** Lines 192-198, TX: [tx_cdc.source] drives [phy.sink].  The fields of
    [phy.sink] are [phy_width] bits wide. *)
Definition tx_phy_sink (tx_cdc_source : dma_stream) : phy_stream :=
  PhyStream (d_valid tx_cdc_source)
    (PhyPayload
       (trunc phy_width (slice (d_data tx_cdc_source) (0 * 16) (1 * 16)))
       (trunc phy_width (slice (d_data tx_cdc_source) (1 * 16) (2 * 16)))
       (trunc phy_width (slice (d_data tx_cdc_source) (2 * 16) (3 * 16)))
       (trunc phy_width (slice (d_data tx_cdc_source) (3 * 16) (4 * 16)))).

Definition tx_cdc_source_ready (phy_sink_ready : bool) : bool := phy_sink_ready.

(** Lines 203-209, RX: [phy.source] drives [rx_cdc.sink]. *)
Definition rx_cdc_sink (phy_source : phy_stream) : dma_stream :=
  DmaStream (p_valid phy_source)
    (set_slice (set_slice (set_slice (set_slice 0
       (0 * 16) (1 * 16) (_sign_extend phy_width (ia (p_data phy_source)) 16))
       (1 * 16) (2 * 16) (_sign_extend phy_width (qa (p_data phy_source)) 16))
       (2 * 16) (3 * 16) (_sign_extend phy_width (ib (p_data phy_source)) 16))
       (3 * 16) (4 * 16) (_sign_extend phy_width (qb (p_data phy_source)) 16)).

Definition phy_source_ready (rx_cdc_sink_ready : bool) : bool := rx_cdc_sink_ready.

(** What the two ends of the datapath see on one cycle. *)
Record datapath := Datapath {
  ctl               : controls;
  tx_cdc_source     : dma_stream;
  phy_sink_ready    : bool;
  phy_source        : phy_stream;
  rx_cdc_sink_ready : bool
}.

(** A word leaves the TX CDC for the PHY on this cycle. *)
Definition tx_transfer (d : datapath) : bool :=
  transfer (p_valid (tx_phy_sink (tx_cdc_source d)))
           (tx_cdc_source_ready (phy_sink_ready d)).

(** A word enters the RX CDC from the PHY on this cycle. *)
Definition rx_transfer (d : datapath) : bool :=
  transfer (d_valid (rx_cdc_sink (phy_source d)))
           (phy_source_ready (rx_cdc_sink_ready d)).

(** The same on an [AD9361RFIC] built on the CMOS PHY, whose [sink.ready]
    is the PHY's own. *)
Definition cmos_tx_transfer (tx_cdc_source : dma_stream) (s : CMOSPHY.state) : bool :=
  transfer (p_valid (tx_phy_sink tx_cdc_source))
           (tx_cdc_source_ready (sink_ready s)).

(** ** [add_prbs] *)

Section PRBS.
Context {G : PRBSGenerator} {C : PRBSChecker}.

(** Lines 240-241. *)
Definition prbs_generator_reset (enable : bool) : bool := negb enable.
Definition prbs_generator_ce (phy_sink_ready : bool) : bool := phy_sink_ready.

(** The generator, clocked by [rfic] and wrapped in [ResetInserter]. *)
Definition prbs_generator_step (g : gen_state) (rst enable phy_sink_ready : bool)
  : gen_state :=
  if rst || prbs_generator_reset enable then gen_reset
  else gen_next g (prbs_generator_ce phy_sink_ready).

(** Lines 242-246: the statements under [If(enable, ...)] come after those of
    [__init__] and win over them. *)
Definition add_prbs_phy_sink (enable : bool) (g : gen_state) (base : phy_stream)
  : phy_stream :=
  if enable then
    PhyStream true
      (PhyPayload (trunc phy_width (gen_o g)) (qa (p_data base))
                  (trunc phy_width (gen_o g)) (qb (p_data base)))
  else base.

(** [phy.sink] after [add_prbs]. *)
Definition phy_sink (c : controls) (g : gen_state) (tx_cdc_source : dma_stream)
  : phy_stream :=
  add_prbs_phy_sink (prbs_tx_enable c) g (tx_phy_sink tx_cdc_source).

(** Line 252: [for data in [phy.source.ia, phy.source.ib]], one checker each. *)
Definition prbs_lanes : list (phy_payload -> Z) := [ia; ib].

Definition prbs_checkers_reset : list chk_state :=
  map (fun _ => chk_reset) prbs_lanes.

(** Lines 257-258: an [rfic] edge of the checkers. *)
Definition prbs_checkers_step (cs : list chk_state) (rst : bool)
  (phy_source : phy_stream) : list chk_state :=
  if rst then prbs_checkers_reset
  else map (fun lc => chk_next (snd lc) (p_valid phy_source)
                               (fst lc (p_data phy_source)))
           (combine prbs_lanes cs).

Definition prbs_checkers_run (trace : list (bool * phy_stream)) : list chk_state :=
  fold_left (fun cs (x : bool * phy_stream) =>
               prbs_checkers_step cs (fst x) (snd x)) trace
            prbs_checkers_reset.

(** Lines 251 and 259-261: [synced] is 1 unless a checker clears it. *)
Definition prbs_rx_synced (cs : list chk_state) : bool :=
  fold_left (fun synced c => if negb (chk_synced c) then false else synced) cs true.

(** One checker alone, fed the lane [lane] of the same trace. *)
Definition lane_checker (lane : phy_payload -> Z) (trace : list (bool * phy_stream))
  : chk_state :=
  fold_left (fun (c : chk_state) (x : bool * phy_stream) =>
               if fst x then chk_reset
               else chk_next c (p_valid (snd x)) (lane (p_data (snd x))))
            trace chk_reset.

End PRBS.

(** ** [add_agc] *)

Section AGC.
Context {A : SaturationCounter}.

Record agc := Agc {
  agc_count_rx1_low  : sat_state;
  agc_count_rx1_high : sat_state;
  agc_count_rx2_low  : sat_state;
  agc_count_rx2_high : sat_state
}.

Definition agc_reset : agc := Agc sat_reset sat_reset sat_reset sat_reset.

(** [ce = rx_cdc.source.valid & rx_cdc.source.ready] *)
Definition agc_ce (rx_cdc_source : dma_stream) (ready : bool) : bool :=
  d_valid rx_cdc_source && ready.

(** The [iqs] of the two channel pairs. *)
Definition iqs_rx1 (rx_cdc_source : dma_stream) : list Z :=
  [slice (d_data rx_cdc_source) (0 * 16) (1 * 16);
   slice (d_data rx_cdc_source) (1 * 16) (2 * 16)].
Definition iqs_rx2 (rx_cdc_source : dma_stream) : list Z :=
  [slice (d_data rx_cdc_source) (2 * 16) (3 * 16);
   slice (d_data rx_cdc_source) (3 * 16) (4 * 16)].

(** Lines 266-281: one clock edge of the four counters, given what
    [rx_cdc.source] carries and its [ready]. *)
Definition add_agc_step (s : agc) (x : dma_stream * bool) : agc :=
  Agc (sat_next (agc_count_rx1_low s)  (agc_ce (fst x) (snd x)) (iqs_rx1 (fst x)))
      (sat_next (agc_count_rx1_high s) (agc_ce (fst x) (snd x)) (iqs_rx1 (fst x)))
      (sat_next (agc_count_rx2_low s)  (agc_ce (fst x) (snd x)) (iqs_rx2 (fst x)))
      (sat_next (agc_count_rx2_high s) (agc_ce (fst x) (snd x)) (iqs_rx2 (fst x))).

Definition agc_run (s : agc) (script : list (dma_stream * bool)) : agc :=
  fold_left add_agc_step script s.

End AGC.

(** The steps of a script on which a word is transferred and a field of the
    pair given by [iqs] is at full scale. *)
Definition saturating_transfers (iqs : dma_stream -> list Z)
  (script : list (dma_stream * bool)) : Z :=
  Z.of_nat (List.length (filter
    (fun x : dma_stream * bool =>
       agc_ce (fst x) (snd x) && existsb AGC.full_scale (iqs (fst x))) script)).

End Core.
Import Core.

(* ================================================================== *)
(** * Views of a run of the CMOS PHY and of the PRBS generator *)

Definition is_sys (t : tick) : bool :=
  match t with
  | Sys _  => true
  | Rfic _ => false
  end.

Definition is_rfic (t : tick) : bool := negb (is_sys t).

(** The last [rfic] edge of a list of ticks, if it has one. *)
Definition last_rfic (ts : list tick) : option rfic_in :=
  fold_left (fun acc t => match t with
                          | Rfic i => Some i
                          | Sys _  => acc
                          end) ts None.

(** The generator of [add_prbs] over a trace of [rfic] edges, each given as
    the domain's reset, [prbs_tx.fields.enable] and [phy.sink.ready]. *)
Definition prbs_generator_run {G : PRBSGenerator} (g : gen_state)
  (trace : list (bool * bool * bool)) : gen_state :=
  fold_left (fun g (x : bool * bool * bool) =>
               prbs_generator_step g (fst (fst x)) (snd (fst x)) (snd x))
            trace g.

(** The generator is neither reset nor disabled on this edge. *)
Definition prbs_running (x : bool * bool * bool) : bool :=
  negb (fst (fst x)) && snd (fst x).

(** A generator that counts its enabled edges, to try the wiring on. *)
Definition counting_generator : PRBSGenerator := {|
  gen_state := Z;
  gen_reset := 0;
  gen_next g ce := if ce then g + 1 else g;
  gen_o g := g
|}.

(** A script of [add_agc] steps with every word cut down to the bits of the
    mask [m]. *)
Definition mask_words (m : Z) (script : list (dma_stream * bool))
  : list (dma_stream * bool) :=
  map (fun x : dma_stream * bool =>
         (DmaStream (d_valid (fst x)) (Z.land (d_data (fst x)) m), snd x)) script.

(* ================================================================== *)
(** * gateware/ad9361/core.py: the configuration register *)

Module Config.

(** A field of a CSR storage: [size] bits from bit [offset] on. *)
Definition csr_field (storage offset size : Z) : Z :=
  slice storage offset (offset + size).

(** The four control pads of the AD9361 that [_config] drives. *)
Record config_pads := ConfigPads { rst_n : Z; enable : Z; txnrx : Z; en_agc : Z }.

(** Lines 93-108 and 140-143: what a [sys] edge loads into the pad registers,
    the fields [rst_n] (offset 0), [enable] (offset 1), [txnrx] (offset 4)
    and [en_agc] (offset 5) of the [_config] storage, one bit each. *)
Definition config_sync (storage : Z) : config_pads :=
  ConfigPads (csr_field storage 0 1) (csr_field storage 1 1)
             (csr_field storage 4 1) (csr_field storage 5 1).

End Config.

(* ================================================================== *)
(** * spi_eth_test.py *)

Module SpiEthTest.

(** [chr(v)] for a code point below 256. *)
Definition chr (v : Z) : ascii := ascii_of_N (Z.to_N v).

(** Lines 20-26: the loop that reads the identifier, from index [i] on with
    [n] rounds left.  The character is appended before the test for the
    terminator.  [read] is [bus.read] on the identifier memory, a ROM. *)
Fixpoint read_identifier (read : Z -> Z) (identifier_mem : Z) (i : Z) (n : nat)
  : string :=
  match n with
  | O => EmptyString
  | S n' =>
      let c := chr (Z.land (read (identifier_mem + 4 * i)) 0xff) in
      String c (if Ascii.eqb c zero then EmptyString
                else read_identifier read identifier_mem (i + 1) n')
  end.

(** [for i in range(256)] *)
Definition fpga_identifier (read : Z -> Z) (identifier_mem : Z) : string :=
  read_identifier read identifier_mem 0 256.

(** Lines 48-52: the bytes of [mosi] for the register [reg]. *)
Definition mosi0 (reg : Z) : Z :=
  Z.lor (Z.shiftl 0 7) (Z.land (Z.shiftr reg 8) 0x7f).
Definition mosi1 (reg : Z) : Z := Z.land (Z.shiftr reg 0) 0xff.
Definition mosi2 : Z := 0x00.

(** Line 54: the word written to [ad9361_spi_mosi]. *)
Definition spi_mosi_word (reg : Z) : Z :=
  Z.lor (Z.lor (Z.shiftl (mosi0 reg) 16) (Z.shiftl (mosi1 reg) 8)) mosi2.

End SpiEthTest.

(* ================================================================== *)
(** * litex_m2sdr.py *)

Module SoC.

(** A Python [dict] with string keys: its items in insertion order. *)
Definition dict := list (string * Z).

(** [d[k] = v]: an existing key keeps its place and takes the new value. *)
Fixpoint dict_set (d : dict) (k : string) (v : Z) : dict :=
  match d with
  | [] => [(k, v)]
  | (k', v') :: r =>
      if String.eqb k' k then (k', v) :: r else (k', v') :: dict_set r k v
  end.

(** [d.get(k)] *)
Fixpoint dict_get (d : dict) (k : string) : option Z :=
  match d with
  | [] => None
  | (k', v') :: r => if String.eqb k' k then Some v' else dict_get r k
  end.

(** A dict display [{k1: v1, k2: v2, ...}]: the items are stored left to
    right. *)
Definition dict_display (items : list (string * Z)) : dict :=
  fold_left (fun d kv => dict_set d (fst kv) (snd kv)) items [].

Local Open Scope string_scope.

(** Lines 93-126: the items of the display assigned to [SoCCore.csr_map]. *)
Definition csr_map_items : list (string * Z) :=
  [ ("ctrl", 0); ("uart", 1); ("icap", 2); ("flash", 3); ("xadc", 4);
    ("dna", 5); ("flash", 6); ("leds", 7);
    ("pcie_phy", 10); ("pcie_msi", 11); ("pcie_dma0", 12);
    ("eth_phy", 14);
    ("sata_phy", 15); ("sata_core", 16);
    ("si5351_i2c", 20); ("si5351_pwm", 21); ("timestamp", 22);
    ("header", 23); ("ad9361", 24);
    ("clk_measurement", 30); ("analyzer", 31) ].

Definition csr_map : dict := dict_display csr_map_items.

End SoC.

(* ================================================================== *)
(** * Scripts for the AGC counters *)

(** One cycle at the source of the RX CDC: the source's [valid], the PHY
    payload the word on offer was built from, and the source's [ready]. *)
Record rx_cycle := RxCycle {
  c_valid   : bool;
  c_payload : phy_payload;
  c_ready   : bool
}.

(** The RX CDC is a queue of words: a word at its source is a word that
    entered its sink, which lines 203-209 built from a PHY payload. *)
Definition rx_cdc_source_cycle (x : rx_cycle) : dma_stream * bool :=
  (DmaStream (c_valid x) (d_data (rx_cdc_sink (PhyStream true (c_payload x)))),
   c_ready x).

(* ================================================================== *)
(** * Bit-level facts about the Migen operations *)

Section MigenFacts.

Lemma trunc_mod (w v : Z) : 0 <= w -> trunc w v = v mod 2 ^ w.
Proof. intro Hw. unfold trunc. now apply Z.land_ones. Qed.

Lemma trunc_range (w v : Z) : 0 <= w -> 0 <= trunc w v < 2 ^ w.
Proof.
  intro Hw. rewrite trunc_mod by assumption.
  apply Z.mod_pos_bound. now apply Z.pow_pos_nonneg.
Qed.

Lemma trunc_small (w v : Z) : 0 <= w -> 0 <= v < 2 ^ w -> trunc w v = v.
Proof. intros Hw Hv. rewrite trunc_mod by assumption. now apply Z.mod_small. Qed.

Lemma testbit_trunc (w v n : Z) :
  0 <= w -> 0 <= n -> Z.testbit (trunc w v) n = (n <? w) && Z.testbit v n.
Proof.
  intros Hw Hn. unfold trunc.
  rewrite Z.land_spec, Z.testbit_ones_nonneg by assumption.
  apply andb_comm.
Qed.

Lemma testbit_slice (v lo hi n : Z) :
  0 <= lo <= hi -> 0 <= n ->
  Z.testbit (slice v lo hi) n = (n <? hi - lo) && Z.testbit v (n + lo).
Proof.
  intros Hlo Hn. unfold slice.
  rewrite Z.land_spec, Z.shiftr_spec, Z.testbit_ones_nonneg by lia.
  apply andb_comm.
Qed.

Lemma testbit_set_slice (d lo hi v n : Z) :
  0 <= lo <= hi -> 0 <= n ->
  Z.testbit (set_slice d lo hi v) n =
  if (lo <=? n) && (n <? hi) then Z.testbit v (n - lo) else Z.testbit d n.
Proof.
  intros Hlo Hn. unfold set_slice, trunc.
  rewrite Z.lor_spec, Z.land_spec, Z.lnot_spec, !Z.shiftl_spec by assumption.
  rewrite Z.land_spec, !Z.testbit_ones by lia.
  destruct (Z.leb_spec lo n), (Z.ltb_spec n hi),
           (Z.leb_spec 0 (n - lo)), (Z.ltb_spec (n - lo) (hi - lo));
    try lia; simpl;
    destruct (Z.testbit d n), (Z.testbit v (n - lo)); reflexivity.
Qed.

(** Reading back the slice that was driven. *)
Lemma slice_set_slice_same (d lo hi v : Z) :
  0 <= lo <= hi -> slice (set_slice d lo hi v) lo hi = trunc (hi - lo) v.
Proof.
  intro Hlo. apply Z.bits_inj'. intros n Hn.
  rewrite testbit_slice, testbit_set_slice, testbit_trunc by lia.
  destruct (Z.ltb_spec n (hi - lo)) as [H | H]; simpl; [ | reflexivity ].
  replace (lo <=? n + lo) with true by (symmetry; apply Z.leb_le; lia).
  replace (n + lo <? hi) with true by (symmetry; apply Z.ltb_lt; lia).
  simpl. f_equal. lia.
Qed.

(** A slice that does not meet the driven one is left as it was. *)
Lemma slice_set_slice_other (d lo hi v lo' hi' : Z) :
  0 <= lo <= hi -> 0 <= lo' <= hi' -> hi' <= lo \/ hi <= lo' ->
  slice (set_slice d lo hi v) lo' hi' = slice d lo' hi'.
Proof.
  intros Hlo Hlo' Hd. apply Z.bits_inj'. intros n Hn.
  rewrite !testbit_slice, testbit_set_slice by lia.
  destruct (Z.ltb_spec n (hi' - lo')) as [H | H]; simpl; [ | reflexivity ].
  destruct (Z.leb_spec lo (n + lo')) as [Hl | Hl]; simpl; [ | reflexivity ].
  destruct (Z.ltb_spec (n + lo') hi) as [Hh | Hh]; simpl; [ lia | reflexivity ].
Qed.

Lemma set_slice_range (d lo hi v W : Z) :
  0 <= lo <= hi -> hi <= W -> 0 <= d < 2 ^ W ->
  0 <= set_slice d lo hi v < 2 ^ W.
Proof.
  intros Hlo HW Hd.
  assert (E : set_slice d lo hi v = (set_slice d lo hi v) mod 2 ^ W).
  { rewrite <- Z.land_ones by lia. apply Z.bits_inj'. intros n Hn.
    rewrite Z.land_spec, Z.testbit_ones_nonneg, testbit_set_slice by lia.
    destruct (Z.ltb_spec n W) as [H | H]; [ now rewrite andb_true_r | ].
    rewrite andb_false_r.
    replace (n <? hi) with false by (symmetry; apply Z.ltb_ge; lia).
    rewrite andb_false_r.
    rewrite <- (Z.mod_small d (2 ^ W)) by assumption.
    apply Z.mod_pow2_bits_high. lia. }
  rewrite E. apply Z.mod_pos_bound. apply Z.pow_pos_nonneg; lia.
Qed.

(** The top bit of a [w]-bit value is set from [2 ^ (w - 1)] on. *)
Lemma msb_ge (w v : Z) :
  0 < w -> 0 <= v < 2 ^ w -> msb w v = (2 ^ (w - 1) <=? v).
Proof.
  intros Hw Hv. unfold msb.
  assert (Hp : 2 ^ w = 2 * 2 ^ (w - 1)).
  { rewrite <- Z.pow_succ_r by lia. f_equal. lia. }
  assert (Hq : 0 < 2 ^ (w - 1)) by (apply Z.pow_pos_nonneg; lia).
  pose proof (Z.testbit_spec' v (w - 1) ltac:(lia)) as Hb.
  destruct (Z.leb_spec (2 ^ (w - 1)) v) as [H | H].
  - assert (Hd : v / 2 ^ (w - 1) = 1).
    { symmetry. apply (Z.div_unique_pos v (2 ^ (w - 1)) 1 (v - 2 ^ (w - 1))); lia. }
    rewrite Hd in Hb. destruct (Z.testbit v (w - 1)); [ reflexivity | discriminate ].
  - rewrite Z.div_small in Hb by lia.
    destruct (Z.testbit v (w - 1)); [ discriminate | reflexivity ].
Qed.

(** Encoding an integer on [w] bits and reading it back as signed. *)
Lemma to_signed_of_signed (w x : Z) :
  0 < w -> - 2 ^ (w - 1) <= x < 2 ^ (w - 1) -> to_signed w (of_signed w x) = x.
Proof.
  intros Hw Hx. unfold to_signed, of_signed.
  assert (Hp : 2 ^ w = 2 * 2 ^ (w - 1)).
  { rewrite <- Z.pow_succ_r by lia. f_equal. lia. }
  assert (Hq : 0 < 2 ^ (w - 1)) by (apply Z.pow_pos_nonneg; lia).
  assert (Hr : 0 <= x mod 2 ^ w < 2 ^ w) by (apply Z.mod_pos_bound; lia).
  rewrite msb_ge by assumption.
  destruct (Z.leb_spec 0 x) as [Hs | Hs].
  - rewrite Z.mod_small by lia.
    destruct (Z.leb_spec (2 ^ (w - 1)) x); lia.
  - assert (Hm : x mod 2 ^ w = x + 2 ^ w).
    { symmetry. apply (Z.mod_unique_pos x (2 ^ w) (-1) (x + 2 ^ w)); lia. }
    rewrite Hm. destruct (Z.leb_spec (2 ^ (w - 1)) (x + 2 ^ w)); lia.
Qed.

Lemma of_signed_range (w x : Z) : 0 <= w -> 0 <= of_signed w x < 2 ^ w.
Proof. intro Hw. apply Z.mod_pos_bound. apply Z.pow_pos_nonneg; lia. Qed.

(** [Cat] of a [w]-bit value and a non-negative one adds them up. *)
Lemma Cat_add (w a b : Z) :
  0 <= w -> 0 <= a < 2 ^ w -> Cat w a b = a + b * 2 ^ w.
Proof.
  intros Hw Ha. unfold Cat. rewrite trunc_small by assumption.
  rewrite Z.shiftl_mul_pow2 by assumption.
  assert (Hl : Z.land a (b * 2 ^ w) = 0).
  { apply Z.bits_inj'. intros n Hn.
    rewrite Z.land_spec, Z.bits_0, <- Z.shiftl_mul_pow2, Z.shiftl_spec by assumption.
    destruct (Z.ltb_spec n w) as [H | H].
    - rewrite (Z.testbit_neg_r b) by lia. apply andb_false_r.
    - rewrite <- (Z.mod_small a (2 ^ w)) by assumption.
      rewrite Z.mod_pow2_bits_high by lia. reflexivity. }
  rewrite <- Z.lxor_lor by assumption. symmetry. now apply Z.add_nocarry_lxor.
Qed.

(** The four 16-bit fields of a word driven slice by slice. *)
Lemma fields16 (a b c d : Z) :
  let w := set_slice (set_slice (set_slice (set_slice 0
             0 16 a) 16 32 b) 32 48 c) 48 64 d in
  slice w 0 16 = trunc 16 a /\ slice w 16 32 = trunc 16 b /\
  slice w 32 48 = trunc 16 c /\ slice w 48 64 = trunc 16 d.
Proof.
  cbv zeta. repeat split.
  - rewrite 3 slice_set_slice_other by lia. now rewrite slice_set_slice_same by lia.
  - rewrite 2 slice_set_slice_other by lia. now rewrite slice_set_slice_same by lia.
  - rewrite slice_set_slice_other by lia. now rewrite slice_set_slice_same by lia.
  - now rewrite slice_set_slice_same by lia.
Qed.

End MigenFacts.

(* ================================================================== *)
(** * The Sample Word between the PHY and the CDCs *)

Section SampleWord.

Lemma sign_extend_value (v : Z) :
  0 <= v < 2 ^ 12 ->
  _sign_extend 12 v 16 = if msb 12 v then v + 15 * 2 ^ 12 else v.
Proof.
  intro Hv. unfold _sign_extend. rewrite Cat_add by lia.
  destruct (msb 12 v); simpl Replicate; [ reflexivity | lia ].
Qed.

Lemma sign_extend_range (v : Z) :
  0 <= v < 2 ^ 12 -> 0 <= _sign_extend 12 v 16 < 2 ^ 16.
Proof.
  intro Hv. rewrite sign_extend_value by assumption.
  destruct (msb 12 v); lia.
Qed.

(** The 16-bit field stands for the same integer as the 12-bit one. *)
Lemma sign_extend_signed (v : Z) :
  0 <= v < 2 ^ 12 -> to_signed 16 (_sign_extend 12 v 16) = to_signed 12 v.
Proof.
  intro Hv. unfold to_signed.
  rewrite (msb_ge 16) by (try apply sign_extend_range; lia).
  rewrite sign_extend_value by assumption.
  pose proof (msb_ge 12 v ltac:(lia) Hv) as Hm.
  destruct (msb 12 v); symmetry in Hm.
  - apply Z.leb_le in Hm. change (2 ^ (12 - 1)) with 2048 in Hm.
    destruct (Z.leb_spec (2 ^ (16 - 1)) (v + 15 * 2 ^ 12)); lia.
  - apply Z.leb_gt in Hm. change (2 ^ (12 - 1)) with 2048 in Hm.
    destruct (Z.leb_spec (2 ^ (16 - 1)) v); lia.
Qed.

(** Cutting the 16-bit field back to 12 bits gives the PHY field again. *)
Lemma trunc_sign_extend (v : Z) :
  0 <= v < 2 ^ 12 -> trunc 12 (_sign_extend 12 v 16) = v.
Proof.
  intro Hv. rewrite sign_extend_value, trunc_mod by lia.
  destruct (msb 12 v).
  - rewrite Z.mod_add by lia. now apply Z.mod_small.
  - now apply Z.mod_small.
Qed.

(** The four 16-bit fields of the word [rx_cdc_sink] builds. *)
Lemma rx_cdc_sink_fields (src : phy_stream) :
  let d := d_data (rx_cdc_sink src) in
  slice d 0 16  = trunc 16 (_sign_extend phy_width (ia (p_data src)) 16) /\
  slice d 16 32 = trunc 16 (_sign_extend phy_width (qa (p_data src)) 16) /\
  slice d 32 48 = trunc 16 (_sign_extend phy_width (ib (p_data src)) 16) /\
  slice d 48 64 = trunc 16 (_sign_extend phy_width (qb (p_data src)) 16).
Proof.
  unfold rx_cdc_sink. cbn [d_data]. apply fields16.
Qed.

Lemma rx_cdc_sink_range (src : phy_stream) :
  0 <= d_data (rx_cdc_sink src) < 2 ^ 64.
Proof.
  unfold rx_cdc_sink. cbn [d_data]. cbn [Z.mul Pos.mul].
  repeat (apply set_slice_range; try lia).
Qed.

End SampleWord.

(** C1.  RX: the word entering the RX CDC is 64 bits wide and its bits
    [0:16], [16:32], [32:48] and [48:64] are the sign extensions to 16 bits
    of the 12-bit PHY fields ia, qa, ib and qb (same bit pattern as
    [_sign_extend], same signed integer), its [valid] being the PHY's.  TX:
    [phy.sink.ia], [qa], [ib] and [qb] are driven from bits [0:16], [16:32],
    [32:48] and [48:64] of the word leaving the TX CDC, cut to the width of
    the PHY field, so that a word built on the RX side splits into the PHY
    fields it was built from.  These are the statements of [__init__]; what
    [add_prbs] puts on top of them is the matter of C3. *)
Theorem sample_word_layout (src : phy_stream) (tx : dma_stream) :
  payload_ok (p_data src) ->
  let d := d_data (rx_cdc_sink src) in
  (d_valid (rx_cdc_sink src) = p_valid src /\ 0 <= d < 2 ^ 64) /\
  (slice d 0 16 = _sign_extend 12 (ia (p_data src)) 16 /\
   slice d 16 32 = _sign_extend 12 (qa (p_data src)) 16 /\
   slice d 32 48 = _sign_extend 12 (ib (p_data src)) 16 /\
   slice d 48 64 = _sign_extend 12 (qb (p_data src)) 16) /\
  (to_signed 16 (slice d 0 16) = to_signed 12 (ia (p_data src)) /\
   to_signed 16 (slice d 16 32) = to_signed 12 (qa (p_data src)) /\
   to_signed 16 (slice d 32 48) = to_signed 12 (ib (p_data src)) /\
   to_signed 16 (slice d 48 64) = to_signed 12 (qb (p_data src))) /\
  (p_valid (tx_phy_sink tx) = d_valid tx /\
   ia (p_data (tx_phy_sink tx)) = trunc 12 (slice (d_data tx) 0 16) /\
   qa (p_data (tx_phy_sink tx)) = trunc 12 (slice (d_data tx) 16 32) /\
   ib (p_data (tx_phy_sink tx)) = trunc 12 (slice (d_data tx) 32 48) /\
   qb (p_data (tx_phy_sink tx)) = trunc 12 (slice (d_data tx) 48 64)) /\
  p_data (tx_phy_sink (rx_cdc_sink src)) = p_data src.
Proof.
  intros (Hia & Hqa & Hib & Hqb) d. subst d. unfold phy_width in *.
  pose proof (rx_cdc_sink_fields src) as F. cbv zeta in F. unfold phy_width in F.
  destruct F as (F0 & F1 & F2 & F3).
  rewrite trunc_small in F0, F1, F2, F3 by (try apply sign_extend_range; lia).
  split; [ split; [ reflexivity | apply rx_cdc_sink_range ] | ].
  split; [ now repeat split | ].
  split; [ rewrite F0, F1, F2, F3; now rewrite !sign_extend_signed by assumption | ].
  split; [ now repeat split | ].
  unfold tx_phy_sink. cbn [p_data Z.mul Pos.mul Pos.add]. unfold phy_width.
  rewrite F0, F1, F2, F3, !trunc_sign_extend by assumption.
  now destruct src as [v []].
Qed.

(** C1 at a payload with a negative field: ia = -1 (0xFFF), qa = 2047. *)
Lemma sample_word_layout_witness :
  let src := PhyStream true (PhyPayload 4095 2047 0 2048) in
  payload_ok (p_data src) /\
  slice (d_data (rx_cdc_sink src)) 0 16 = 65535 /\
  to_signed 16 (slice (d_data (rx_cdc_sink src)) 48 64) = -2048.
Proof.
  intro src.
  assert (Hok : payload_ok (p_data src)) by (vm_compute; intuition discriminate).
  pose proof (sample_word_layout src (DmaStream true 0) Hok) as H.
  split; [ exact Hok | ].
  destruct H as (_ & (F0 & _) & (_ & _ & _ & S3) & _).
  split; [ rewrite F0; reflexivity | rewrite S3; reflexivity ].
Defined.

(* ================================================================== *)
(** * Bit-Mode converters *)

Section BitModeFacts.

Lemma unpack16_pack16 (s : Sample) : carried s -> unpack16 (pack16 s) = s.
Proof.
  intros (Hia & Hqa & Hib & Hqb). destruct s as [a b c d]; cbn [IA QA IB QB] in *.
  unfold unpack16, pack16. cbn [IA QA IB QB].
  destruct (fields16 (of_signed 16 a) (of_signed 16 b)
                     (of_signed 16 c) (of_signed 16 d)) as (-> & -> & -> & ->).
  rewrite !trunc_small by (try apply of_signed_range; lia).
  now rewrite !to_signed_of_signed by (cbn; lia).
Qed.

Lemma pack16_range (s : Sample) : 0 <= pack16 s < 2 ^ 64.
Proof. unfold pack16. repeat (apply set_slice_range; try lia). Qed.

End BitModeFacts.

(** C2.  With the [_bitmode] CSR at 16-bit mode, which both converters read,
    a stream of Samples whose fields fit the 16-bit carrier comes out of the
    RX converter exactly as it went into the TX converter, and every word in
    between is 64 bits wide. *)
Theorem bitmode16_roundtrip (c : controls) (l : list Sample) :
  bitmode c = _16_BIT_MODE ->
  Forall carried l ->
  rx_bitmode c (tx_bitmode c l) = l /\
  Forall (fun w => 0 <= w < 2 ^ 64) (tx_bitmode c l).
Proof.
  intros Hm Hl. unfold rx_bitmode, tx_bitmode, AD9361RXBitMode, AD9361TXBitMode.
  rewrite Hm. unfold _16_BIT_MODE. split.
  - induction Hl as [ | s r Hs _ IH ]; [ reflexivity | ].
    cbn [map]. now rewrite unpack16_pack16, IH.
  - apply Forall_forall. intros w Hw. apply in_map_iff in Hw.
    destruct Hw as (s & <- & _). apply pack16_range.
Qed.

(** C2 on the spec's scenario, IA = 100 and QA = -200, and on the extremes. *)
Lemma bitmode16_roundtrip_witness :
  let l := [MkSample 100 (-200) 0 0; MkSample 2047 (-2048) 32767 (-32768)] in
  rx_bitmode controls_reset (tx_bitmode controls_reset l) = l.
Proof.
  intro l.
  refine (proj1 (bitmode16_roundtrip controls_reset l eq_refl _)).
  repeat constructor; cbn; lia.
Defined.

(* ================================================================== *)
(** * PRBS self-test *)

(** C3, as stated, fails: with the enable flag set, a generator whose output
    is 0 and a TX word whose QA field is 1, [phy.sink.qa] carries the
    datapath's 1 and not the generator's 0. *)
Lemma prbs_replaces_all_fields_fails :
  ~ (forall (G : PRBSGenerator) (c : controls) (g : gen_state) (tx : dma_stream),
       (prbs_tx_enable c = true ->
        ia (p_data (phy_sink c g tx)) = trunc phy_width (gen_o g) /\
        qa (p_data (phy_sink c g tx)) = trunc phy_width (gen_o g) /\
        ib (p_data (phy_sink c g tx)) = trunc phy_width (gen_o g) /\
        qb (p_data (phy_sink c g tx)) = trunc phy_width (gen_o g)) /\
       (prbs_tx_enable c = false -> phy_sink c g tx = tx_phy_sink tx)).
Proof.
  intro H.
  destruct (H (stuck_generator 0) (Controls true false true) tt
              (DmaStream true (2 ^ 16))) as [He _].
  destruct (He eq_refl) as (_ & Hqa & _). vm_compute in Hqa. discriminate.
Qed.

(** C3, amended.  While the enable flag is set, [phy.sink.valid] is forced to
    1 and the generator's output, cut to the field's width, replaces ia and
    ib only; qa and qb keep the datapath's values, bits [16:32] and [48:64]
    of the word leaving the TX CDC.  While the flag is clear the PHY sink
    carries the datapath's valid and four fields unchanged. *)
Theorem prbs_replaces_ia_ib {G : PRBSGenerator} (c : controls) (g : gen_state)
  (tx : dma_stream) :
  phy_sink c g tx =
  if prbs_tx_enable c then
    PhyStream true
      (PhyPayload (trunc 12 (gen_o g)) (trunc 12 (slice (d_data tx) 16 32))
                  (trunc 12 (gen_o g)) (trunc 12 (slice (d_data tx) 48 64)))
  else
    PhyStream (d_valid tx)
      (PhyPayload (trunc 12 (slice (d_data tx) 0 16)) (trunc 12 (slice (d_data tx) 16 32))
                  (trunc 12 (slice (d_data tx) 32 48)) (trunc 12 (slice (d_data tx) 48 64))).
Proof.
  unfold phy_sink, add_prbs_phy_sink, tx_phy_sink.
  destruct (prbs_tx_enable c); reflexivity.
Qed.

Section PRBSRx.
Context {C : PRBSChecker}.

(** The status bit is the conjunction of the checkers' [synced] outputs. *)
Lemma prbs_rx_synced_forallb (cs : list chk_state) :
  prbs_rx_synced cs = forallb chk_synced cs.
Proof.
  unfold prbs_rx_synced.
  assert (H : forall acc,
    fold_left (fun synced c => if negb (chk_synced c) then false else synced) cs acc
    = acc && forallb chk_synced cs).
  { induction cs as [ | c r IH ]; intro acc; cbn [fold_left forallb].
    - now rewrite andb_true_r.
    - rewrite IH. destruct (chk_synced c), acc; reflexivity. }
  now rewrite H.
Qed.

Lemma prbs_checkers_fold (trace : list (bool * phy_stream)) (a b : chk_state) :
  fold_left (fun cs (x : bool * phy_stream) =>
               prbs_checkers_step cs (fst x) (snd x)) trace [a; b]
  = [ fold_left (fun (c : chk_state) (x : bool * phy_stream) =>
                   if fst x then chk_reset
                   else chk_next c (p_valid (snd x)) (ia (p_data (snd x))))
                trace a;
      fold_left (fun (c : chk_state) (x : bool * phy_stream) =>
                   if fst x then chk_reset
                   else chk_next c (p_valid (snd x)) (ib (p_data (snd x))))
                trace b ].
Proof.
  revert a b. induction trace as [ | x r IH ]; intros a b; [ reflexivity | ].
  cbn [fold_left]. unfold prbs_checkers_step at 2.
  destruct (fst x); apply IH.
Qed.

(** The two checkers of [add_prbs] run as two checkers on their own, one on
    the ia lane, one on the ib lane. *)
Lemma prbs_checkers_run_lanes (trace : list (bool * phy_stream)) :
  prbs_checkers_run trace = [lane_checker ia trace; lane_checker ib trace].
Proof. apply prbs_checkers_fold. Qed.

End PRBSRx.

(** C4.  After any trace of [rfic] edges the two checkers of [add_prbs] are
    the checker fed [phy.source.ia] and the checker fed [phy.source.ib], each
    running on its own, and the status bit is the AND of their [synced]
    outputs: 1 exactly when both are synchronized. *)
Theorem prbs_rx_synced_is_and {C : PRBSChecker} (trace : list (bool * phy_stream)) :
  prbs_checkers_run trace = [lane_checker ia trace; lane_checker ib trace] /\
  prbs_rx_synced (prbs_checkers_run trace)
  = chk_synced (lane_checker ia trace) && chk_synced (lane_checker ib trace) /\
  (prbs_rx_synced (prbs_checkers_run trace) = true <->
   chk_synced (lane_checker ia trace) = true /\
   chk_synced (lane_checker ib trace) = true).
Proof.
  assert (E : prbs_rx_synced (prbs_checkers_run trace)
              = chk_synced (lane_checker ia trace) && chk_synced (lane_checker ib trace)).
  { rewrite prbs_rx_synced_forallb, prbs_checkers_run_lanes. cbn [forallb].
    now rewrite andb_true_r. }
  split; [ apply prbs_checkers_run_lanes | ].
  split; [ exact E | ].
  rewrite E. apply andb_true_iff.
Qed.

(* ================================================================== *)
(** * AGC saturation counters *)

Section AGCFacts.

(** A step on which no word is transferred leaves the four counters alone,
    whatever the counter does with its inputs when [ce] is high. *)
Lemma add_agc_step_idle (s : @agc AGC.AGCSaturationCount) (x : dma_stream * bool) :
  agc_ce (fst x) (snd x) = false -> add_agc_step s x = s.
Proof.
  intro H. unfold add_agc_step. rewrite H. cbn. now destruct s.
Qed.

Lemma saturating_transfers_cons (iqs : dma_stream -> list Z)
  (x : dma_stream * bool) (r : list (dma_stream * bool)) :
  saturating_transfers iqs (x :: r)
  = (if agc_ce (fst x) (snd x) && existsb AGC.full_scale (iqs (fst x)) then 1 else 0)
    + saturating_transfers iqs r.
Proof.
  unfold saturating_transfers. cbn [filter].
  destruct (agc_ce (fst x) (snd x) && existsb AGC.full_scale (iqs (fst x)));
    cbn [List.length]; lia.
Qed.

Lemma agc_run_counts (script : list (dma_stream * bool))
  (s : @agc AGC.AGCSaturationCount) :
  agc_run s script =
  @Agc AGC.AGCSaturationCount
      (agc_count_rx1_low s  + saturating_transfers iqs_rx1 script)
      (agc_count_rx1_high s + saturating_transfers iqs_rx1 script)
      (agc_count_rx2_low s  + saturating_transfers iqs_rx2 script)
      (agc_count_rx2_high s + saturating_transfers iqs_rx2 script).
Proof.
  revert s. unfold agc_run.
  induction script as [ | x r IH ]; intro s.
  - cbn. destruct s; cbn. f_equal; lia.
  - cbn [fold_left]. rewrite IH, !saturating_transfers_cons.
    unfold add_agc_step. cbn [agc_count_rx1_low agc_count_rx1_high
                              agc_count_rx2_low agc_count_rx2_high sat_next
                              AGC.AGCSaturationCount].
    destruct (agc_ce (fst x) (snd x) && existsb AGC.full_scale (iqs_rx1 (fst x)));
    destruct (agc_ce (fst x) (snd x) && existsb AGC.full_scale (iqs_rx2 (fst x)));
    f_equal; lia.
Qed.

End AGCFacts.

Section AGCPayloads.

(** A 16-bit field built from a 12-bit PHY field is at full scale exactly
    when the PHY field is 0x7FF (+2047) or 0x800 (-2048). *)
Lemma full_scale_sign_extend (v : Z) :
  0 <= v < 2 ^ 12 ->
  AGC.full_scale (_sign_extend 12 v 16) = (v =? 2047) || (v =? 2048).
Proof.
  intro Hv. unfold AGC.full_scale. rewrite sign_extend_signed by assumption.
  unfold to_signed. rewrite msb_ge by lia.
  change (2 ^ (12 - 1)) with 2048. change (2 ^ 11 - 1) with 2047.
  change (- 2 ^ 11) with (-2048). change (2 ^ 12) with 4096 in *.
  destruct (Z.leb_spec 2048 v);
    destruct (Z.eqb_spec v 2047); destruct (Z.eqb_spec v 2048);
    repeat match goal with
           | |- context [?a =? ?b] => destruct (Z.eqb_spec a b)
           end; try reflexivity; lia.
Qed.

(** What the counters of each pair test on a word built from a payload. *)
Lemma iqs_rx1_payload (x : rx_cycle) :
  payload_ok (c_payload x) ->
  existsb AGC.full_scale (iqs_rx1 (fst (rx_cdc_source_cycle x)))
  = (ia (c_payload x) =? 2047) || (ia (c_payload x) =? 2048)
    || (qa (c_payload x) =? 2047) || (qa (c_payload x) =? 2048).
Proof.
  intros (Hia & Hqa & _ & _). unfold phy_width in *.
  pose proof (rx_cdc_sink_fields (PhyStream true (c_payload x))) as F.
  cbv zeta in F. unfold phy_width in F. cbn [p_data] in F.
  destruct F as (F0 & F1 & _ & _).
  rewrite trunc_small in F0, F1 by (try apply sign_extend_range; lia).
  unfold iqs_rx1, rx_cdc_source_cycle. cbn [fst d_data Z.mul Pos.mul Pos.add existsb].
  rewrite F0, F1, !full_scale_sign_extend by assumption.
  now rewrite orb_false_r, orb_assoc.
Qed.

Lemma iqs_rx2_payload (x : rx_cycle) :
  payload_ok (c_payload x) ->
  existsb AGC.full_scale (iqs_rx2 (fst (rx_cdc_source_cycle x)))
  = (ib (c_payload x) =? 2047) || (ib (c_payload x) =? 2048)
    || (qb (c_payload x) =? 2047) || (qb (c_payload x) =? 2048).
Proof.
  intros (_ & _ & Hib & Hqb). unfold phy_width in *.
  pose proof (rx_cdc_sink_fields (PhyStream true (c_payload x))) as F.
  cbv zeta in F. unfold phy_width in F. cbn [p_data] in F.
  destruct F as (_ & _ & F2 & F3).
  rewrite trunc_small in F2, F3 by (try apply sign_extend_range; lia).
  unfold iqs_rx2, rx_cdc_source_cycle. cbn [fst d_data Z.mul Pos.mul Pos.add existsb].
  rewrite F2, F3, !full_scale_sign_extend by assumption.
  now rewrite orb_false_r, orb_assoc.
Qed.

(** Counting by the counter's own test and counting by a test [hit] on the
    cycles agree when the two tests agree on every cycle of the script. *)
Lemma saturating_transfers_cycles (iqs : dma_stream -> list Z)
  (hit : rx_cycle -> bool) (script : list rx_cycle) :
  Forall (fun x => existsb AGC.full_scale (iqs (fst (rx_cdc_source_cycle x))) = hit x)
         script ->
  saturating_transfers iqs (map rx_cdc_source_cycle script)
  = Z.of_nat (List.length (filter (fun x => c_valid x && c_ready x && hit x) script)).
Proof.
  induction 1 as [ | x r Hx _ IH ]; [ reflexivity | ].
  cbn [map]. rewrite saturating_transfers_cons, IH, Hx. cbn [filter].
  unfold agc_ce, rx_cdc_source_cycle. cbn [fst snd d_valid].
  destruct (c_valid x && c_ready x && hit x); cbn [List.length]; lia.
Qed.

End AGCPayloads.

(** C5.  A word offered while [ready] is low, or a cycle on which [valid] is
    low, changes none of the four counters, and a step that changes a counter
    is one on which [valid] and [ready] both hold.  Over a script of cycles
    at the RX CDC's source, each carrying a word built from a 12-bit PHY
    payload, the two rx1 counters go up by exactly the number of cycles with
    valid and ready both high whose ia or qa is 2047 (0x7FF) or -2048
    (0x800), and the two rx2 counters by the number of those whose ib or qb
    is. *)
Theorem agc_counts_transfers_only (s : @agc AGC.AGCSaturationCount)
  (script : list rx_cycle) :
  Forall (fun x => payload_ok (c_payload x)) script ->
  (forall (src : dma_stream), add_agc_step s (src, false) = s) /\
  (forall (data : Z) (ready : bool), add_agc_step s (DmaStream false data, ready) = s) /\
  (forall (x : dma_stream * bool),
     add_agc_step s x <> s -> d_valid (fst x) = true /\ snd x = true) /\
  agc_count_rx1_low (agc_run s (map rx_cdc_source_cycle script))
    = agc_count_rx1_low s
      + Z.of_nat (List.length (filter (fun x =>
          c_valid x && c_ready x &&
          ((ia (c_payload x) =? 2047) || (ia (c_payload x) =? 2048)
           || (qa (c_payload x) =? 2047) || (qa (c_payload x) =? 2048))) script)) /\
  agc_count_rx1_high (agc_run s (map rx_cdc_source_cycle script))
    = agc_count_rx1_high s
      + Z.of_nat (List.length (filter (fun x =>
          c_valid x && c_ready x &&
          ((ia (c_payload x) =? 2047) || (ia (c_payload x) =? 2048)
           || (qa (c_payload x) =? 2047) || (qa (c_payload x) =? 2048))) script)) /\
  agc_count_rx2_low (agc_run s (map rx_cdc_source_cycle script))
    = agc_count_rx2_low s
      + Z.of_nat (List.length (filter (fun x =>
          c_valid x && c_ready x &&
          ((ib (c_payload x) =? 2047) || (ib (c_payload x) =? 2048)
           || (qb (c_payload x) =? 2047) || (qb (c_payload x) =? 2048))) script)) /\
  agc_count_rx2_high (agc_run s (map rx_cdc_source_cycle script))
    = agc_count_rx2_high s
      + Z.of_nat (List.length (filter (fun x =>
          c_valid x && c_ready x &&
          ((ib (c_payload x) =? 2047) || (ib (c_payload x) =? 2048)
           || (qb (c_payload x) =? 2047) || (qb (c_payload x) =? 2048))) script)).
Proof.
  intro Hok.
  split; [ intro src; apply add_agc_step_idle; apply andb_false_r | ].
  split; [ intros data ready; now apply add_agc_step_idle | ].
  split.
  - intros x Hx. apply andb_true_iff.
    destruct (agc_ce (fst x) (snd x)) eqn:E; [ exact E | ].
    exfalso. apply Hx. now apply add_agc_step_idle.
  - rewrite agc_run_counts.
    cbn [agc_count_rx1_low agc_count_rx1_high agc_count_rx2_low agc_count_rx2_high].
    rewrite (saturating_transfers_cycles iqs_rx1 (fun x =>
               (ia (c_payload x) =? 2047) || (ia (c_payload x) =? 2048)
               || (qa (c_payload x) =? 2047) || (qa (c_payload x) =? 2048)))
      by (eapply Forall_impl; [ | exact Hok ]; intros x Hx; now apply iqs_rx1_payload).
    rewrite (saturating_transfers_cycles iqs_rx2 (fun x =>
               (ib (c_payload x) =? 2047) || (ib (c_payload x) =? 2048)
               || (qb (c_payload x) =? 2047) || (qb (c_payload x) =? 2048)))
      by (eapply Forall_impl; [ | exact Hok ]; intros x Hx; now apply iqs_rx2_payload).
    now repeat split.
Qed.

(** C5 on a script of seven cycles.  Three transferred words have channel A
    at full scale (+2047 on ia, -2048 on qa, both); one such word is offered
    with [ready] low and one with [valid] low; of the two other transferred
    words one has channel B at full scale and one has nothing at full scale.
    From reset the rx1 counters read 3 and the rx2 counters read 1. *)
Lemma agc_counts_transfers_only_witness :
  let script :=
    [ RxCycle true  (PhyPayload 2047 0 0 0)       true;
      RxCycle true  (PhyPayload 2047 0 0 0)       false;
      RxCycle true  (PhyPayload 5 2048 7 9)       true;
      RxCycle false (PhyPayload 2048 2048 0 0)    true;
      RxCycle true  (PhyPayload 100 4000 2047 0)  true;
      RxCycle true  (PhyPayload 2047 2048 1 1)    true;
      RxCycle true  (PhyPayload 2046 2049 2046 4095) true ] in
  @agc_run AGC.AGCSaturationCount agc_reset (map rx_cdc_source_cycle script)
  = @Agc AGC.AGCSaturationCount 3 3 1 1.
Proof.
  intro script.
  assert (Hok : Forall (fun x => payload_ok (c_payload x)) script)
    by (repeat constructor; vm_compute; intuition discriminate).
  destruct (agc_counts_transfers_only agc_reset script Hok)
    as (_ & _ & _ & H1 & H2 & H3 & H4).
  destruct (agc_run agc_reset (map rx_cdc_source_cycle script)) as [a b c d].
  cbn [agc_count_rx1_low agc_count_rx1_high agc_count_rx2_low agc_count_rx2_high] in *.
  rewrite H1, H2, H3, H4. reflexivity.
Defined.

(* ================================================================== *)
(** * The CMOS PHY *)

Section CMOSFacts.

(** Channel B is zero in the capture registers and in the source. *)
Lemma channel_b_zero_step (s : state) (t : tick) :
  rx_data_ib s = 0 /\ rx_data_qb s = 0 /\
  ib (p_data (source s)) = 0 /\ qb (p_data (source s)) = 0 ->
  rx_data_ib (step s t) = 0 /\ rx_data_qb (step s t) = 0 /\
  ib (p_data (source (step s t))) = 0 /\ qb (p_data (source (step s t))) = 0.
Proof.
  intros (H1 & H2 & H3 & H4). destruct t as [c | i]; cbn [step].
  - unfold sys_step. cbn. now repeat split.
  - unfold rfic_step. destruct (rst i); cbn; now repeat split.
Qed.

Lemma channel_b_zero_run (ts : list tick) (s : state) :
  rx_data_ib s = 0 /\ rx_data_qb s = 0 /\
  ib (p_data (source s)) = 0 /\ qb (p_data (source s)) = 0 ->
  ib (p_data (source (run s ts))) = 0 /\ qb (p_data (source (run s ts))) = 0.
Proof.
  revert s. unfold run. induction ts as [ | t r IH ]; intros s H.
  - cbn. tauto.
  - cbn [fold_left]. apply IH. now apply channel_b_zero_step.
Qed.

(** An [rfic] edge out of reset raises [valid], whatever [ready] is. *)
Lemma valid_after_rfic_step (s : state) (i : rfic_in) :
  rst i = false -> p_valid (source (rfic_step s i)) = true.
Proof. intro H. unfold rfic_step. rewrite H. reflexivity. Qed.

(** Once raised, [valid] stays up as long as the reset is not asserted. *)
Lemma valid_kept (ts : list tick) (s : state) :
  p_valid (source s) = true -> forallb reset_released ts = true ->
  p_valid (source (run s ts)) = true.
Proof.
  revert s. unfold run. induction ts as [ | t r IH ]; intros s Hs Hr; [ exact Hs | ].
  cbn [fold_left]. cbn [forallb] in Hr. apply andb_true_iff in Hr.
  destruct Hr as [Ht Hr]. apply IH; [ | exact Hr ].
  destruct t as [c | i]; cbn [step].
  - exact Hs.
  - apply valid_after_rfic_step. cbn in Ht. now apply negb_true_iff.
Qed.

(** No register reads the source's [ready]. *)
Lemma step_ignores_ready (b : bool) (s : state) (t : tick) :
  step s (with_ready b t) = step s t.
Proof. destruct t as [c | i]; reflexivity. Qed.

Lemma run_ignores_ready (b : bool) (ts : list tick) (s : state) :
  run s (map (with_ready b) ts) = run s ts.
Proof.
  revert s. unfold run. induction ts as [ | t r IH ]; intro s; [ reflexivity | ].
  cbn [map fold_left]. now rewrite step_ignores_ready, IH.
Qed.

(** [sink.ready] is low in every state. *)
Lemma sink_ready_low (s : state) : sink_ready s = false.
Proof. reflexivity. Qed.

(** The [rfic] registers the receive path writes do not depend on the
    control word, on its synchronisers or on the sink. *)
Lemma quiet_step (s s' : state) (t : tick) :
  rx_frame_d s = rx_frame_d s' -> rx_frame_rising_d s = rx_frame_rising_d s' ->
  rx_data_ia s = rx_data_ia s' -> rx_data_qa s = rx_data_qa s' ->
  rx_data_ib s = rx_data_ib s' -> rx_data_qb s = rx_data_qb s' ->
  source s = source s' ->
  rx_frame_d (step s t) = rx_frame_d (step s' (quiet t)) /\
  rx_frame_rising_d (step s t) = rx_frame_rising_d (step s' (quiet t)) /\
  rx_data_ia (step s t) = rx_data_ia (step s' (quiet t)) /\
  rx_data_qa (step s t) = rx_data_qa (step s' (quiet t)) /\
  rx_data_ib (step s t) = rx_data_ib (step s' (quiet t)) /\
  rx_data_qb (step s t) = rx_data_qb (step s' (quiet t)) /\
  source (step s t) = source (step s' (quiet t)).
Proof.
  intros H1 H2 H3 H4 H5 H6 H7. destruct t as [c | i]; cbn [step quiet].
  - unfold sys_step. cbn. now repeat split.
  - unfold rfic_step. cbn [rst rx_frame rx_data_i rx_data_q].
    destruct (rst i); cbn; [ now repeat split | ].
    unfold rx_frame_rising. cbn. rewrite H1, H3, H4, H5, H6. now repeat split.
Qed.

Lemma quiet_run (ts : list tick) (s s' : state) :
  rx_frame_d s = rx_frame_d s' -> rx_frame_rising_d s = rx_frame_rising_d s' ->
  rx_data_ia s = rx_data_ia s' -> rx_data_qa s = rx_data_qa s' ->
  rx_data_ib s = rx_data_ib s' -> rx_data_qb s = rx_data_qb s' ->
  source s = source s' ->
  source (run s ts) = source (run s' (map quiet ts)).
Proof.
  revert s s'. unfold run.
  induction ts as [ | t r IH ]; intros s s' H1 H2 H3 H4 H5 H6 H7; [ exact H7 | ].
  cbn [map fold_left].
  destruct (quiet_step s s' t H1 H2 H3 H4 H5 H6 H7) as (K1 & K2 & K3 & K4 & K5 & K6 & K7).
  now apply IH.
Qed.

End CMOSFacts.

(** C6.  From reset, after any interleaving of [sys] and [rfic] edges,
    whatever the control word (1R1T or 2R2T) and whatever the receive pins
    carry, the ib and qb fields of the source are zero. *)
Theorem cmos_channel_b_zero (ts : list tick) :
  ib (p_data (source (run reset_state ts))) = 0 /\
  qb (p_data (source (run reset_state ts))) = 0.
Proof. apply channel_b_zero_run. cbn. now repeat split. Qed.

(** C7.  From any state, once one [rfic] edge has passed with the reset
    released, the source's [valid] is asserted for as long as the reset stays
    released; and the source's [ready] has no effect on any register, so
    [valid] is never taken down because [ready] is low. *)
Theorem cmos_source_valid (s0 : state) (pre post : list tick) (i : rfic_in) :
  rst i = false ->
  forallb reset_released post = true ->
  p_valid (source (run s0 (pre ++ Rfic i :: post))) = true /\
  run s0 (map (with_ready false) (pre ++ Rfic i :: post))
  = run s0 (pre ++ Rfic i :: post).
Proof.
  intros Hi Hpost. split; [ | apply run_ignores_ready ].
  unfold run. rewrite fold_left_app. cbn [fold_left step].
  apply valid_kept; [ now apply valid_after_rfic_step | exact Hpost ].
Qed.

(** C7 on a run from reset: two edges under reset, the first edge after its
    release, then edges with [ready] low. *)
Lemma cmos_source_valid_witness :
  let held := Rfic (RficIn true false 0 0 (PhyStream false payload0) false) in
  let free := RficIn false true 5 7 (PhyStream false payload0) false in
  p_valid (source (run reset_state
    ([held; held] ++ Rfic free :: [Sys (Control true false); Rfic free]))) = true.
Proof.
  intros held free.
  exact (proj1 (cmos_source_valid reset_state [held; held]
                  [Sys (Control true false); Rfic free] free eq_refl eq_refl)).
Defined.

(** C8, as stated, fails: building the RFIC on the CMOS PHY, which wires the
    TX CDC to [phy.sink], raises nothing, and a loopback bit written to the
    control register is taken through the synchroniser like any other. *)
Lemma cmos_unsupported_not_rejected :
  ~ (exists exn, AD9361RFIC "cmos" = Raised exn) /\
  loopback (run reset_state [Sys (Control false true); Sys (Control false true)]) = true.
Proof.
  split; [ | reflexivity ].
  intros [exn H]. vm_compute in H. discriminate.
Qed.

(** C8, amended.  On the CMOS PHY the transmit path and the loopback are not
    part of the design and nothing reports it: the RFIC is built without an
    exception; in every state [phy.sink.ready] is low, so no word ever leaves
    the TX CDC for the PHY; and the source is what it would be had the
    control word stayed 0 and the sink stayed idle. *)
Theorem cmos_tx_loopback_inert (ts : list tick) (tx_cdc_source : dma_stream) :
  AD9361RFIC "cmos" = Built (MkRfic AD9361CMOSPHY) /\
  sink_ready (run reset_state ts) = false /\
  cmos_tx_transfer tx_cdc_source (run reset_state ts) = false /\
  source (run reset_state ts) = source (run reset_state (map quiet ts)).
Proof.
  split; [ reflexivity | ].
  split; [ apply sink_ready_low | ].
  split.
  - unfold cmos_tx_transfer, tx_cdc_source_ready, transfer.
    rewrite sink_ready_low. apply andb_false_r.
  - now apply quiet_run.
Qed.

(* ================================================================== *)
(** * The datapath enable *)

(** C9 fails on the code: with [enable_datapath] low, a valid word at the TX
    CDC's source and a ready PHY sink, a word is transferred to the PHY; with
    a valid PHY source and a ready RX CDC sink, a word is transferred into the
    RX CDC.  No statement of the datapath reads the control. *)
Theorem datapath_enable_unused :
  let d := Datapath (Controls false false false)
                    (DmaStream true 1) true
                    (PhyStream true (PhyPayload 1 0 0 0)) true in
  enable_datapath (ctl d) = false /\ tx_transfer d = true /\ rx_transfer d = true.
Proof. cbv zeta. repeat split. Qed.

(* ================================================================== *)
(** * More on the CMOS PHY *)

Section CMOSRuns.

(** The [sys] edges leave the registers of the [rfic] domain alone. *)
Lemma sys_ticks_keep_rfic (mid : list tick) (s : state) :
  forallb is_sys mid = true ->
  rx_frame_d (run s mid) = rx_frame_d s /\
  rx_frame_rising_d (run s mid) = rx_frame_rising_d s /\
  rx_data_ia (run s mid) = rx_data_ia s /\
  rx_data_qa (run s mid) = rx_data_qa s /\
  rx_data_ib (run s mid) = rx_data_ib s /\
  rx_data_qb (run s mid) = rx_data_qb s /\
  source (run s mid) = source s.
Proof.
  revert s. unfold run. induction mid as [ | t r IH ]; intros s H.
  - cbn. now repeat split.
  - cbn [forallb] in H. apply andb_true_iff in H. destruct H as [Ht Hr].
    destruct t as [c | i]; [ | discriminate ].
    cbn [fold_left step]. destruct (IH (sys_step s c) Hr) as (K1 & K2 & K3 & K4 & K5 & K6 & K7).
    now rewrite K1, K2, K3, K4, K5, K6, K7.
Qed.

Lemma run_snoc (s : state) (ts : list tick) (t : tick) :
  run s (ts ++ [t]) = step (run s ts) t.
Proof. unfold run. now rewrite fold_left_app. Qed.

Lemma run_cons (s : state) (t : tick) (ts : list tick) :
  run s (t :: ts) = run (step s t) ts.
Proof. reflexivity. Qed.

(** [valid] after a list of ticks, given what it was before them. *)
Lemma valid_last_rfic (ts : list tick) (s : state) (acc : option rfic_in) (v : bool) :
  p_valid (source s) = match acc with Some i => negb (rst i) | None => v end ->
  p_valid (source (run s ts))
  = match fold_left (fun acc t => match t with
                                  | Rfic i => Some i
                                  | Sys _  => acc
                                  end) ts acc with
    | Some i => negb (rst i)
    | None => v
    end.
Proof.
  revert s acc. unfold run. induction ts as [ | t r IH ]; intros s acc H; [ exact H | ].
  cbn [fold_left]. apply IH. destruct t as [c | i]; cbn [step].
  - exact H.
  - unfold rfic_step. now destruct (rst i).
Qed.

(** The capture registers and the source hold 12-bit values. *)
Lemma fields_in_range_step (s : state) (t : tick) :
  (0 <= rx_data_ia s < 2 ^ 12) /\ (0 <= rx_data_qa s < 2 ^ 12) /\
  rx_data_ib s = 0 /\ rx_data_qb s = 0 /\ payload_ok (p_data (source s)) ->
  (0 <= rx_data_ia (step s t) < 2 ^ 12) /\ (0 <= rx_data_qa (step s t) < 2 ^ 12) /\
  rx_data_ib (step s t) = 0 /\ rx_data_qb (step s t) = 0 /\
  payload_ok (p_data (source (step s t))).
Proof.
  intros (Ha & Hq & Hb & Hd & Hp). destruct t as [c | i]; cbn [step].
  - unfold sys_step.
    cbn [rx_data_ia rx_data_qa rx_data_ib rx_data_qb source]. tauto.
  - pose proof (trunc_range 12 (rx_data_i i) ltac:(lia)) as Ti.
    pose proof (trunc_range 12 (rx_data_q i) ltac:(lia)) as Tq.
    unfold rfic_step, next_source, payload_ok, phy_width in *.
    destruct (rst i);
      cbn [rx_data_ia rx_data_qa rx_data_ib rx_data_qb source p_data
           ia qa ib qb tx_elaborated andb payload0];
      rewrite ?Hb, ?Hd; change (trunc 12 0) with 0; repeat split; lia.
Qed.

Lemma fields_in_range_run (ts : list tick) :
  payload_ok (p_data (source (run reset_state ts))).
Proof.
  assert (H : forall s,
    (0 <= rx_data_ia s < 2 ^ 12) /\ (0 <= rx_data_qa s < 2 ^ 12) /\
    rx_data_ib s = 0 /\ rx_data_qb s = 0 /\ payload_ok (p_data (source s)) ->
    payload_ok (p_data (source (run s ts)))).
  { unfold run. induction ts as [ | t r IH ]; intros s Hs.
    - cbn. tauto.
    - cbn [fold_left]. apply IH. now apply fields_in_range_step. }
  apply H. unfold payload_ok, phy_width. cbn. repeat split; lia.
Qed.

(** A 12-bit pattern stands for an integer of the signed 12-bit range. *)
Lemma to_signed_12_range (v : Z) :
  0 <= v < 2 ^ 12 -> - 2 ^ 11 <= to_signed 12 v < 2 ^ 11.
Proof.
  intro Hv. unfold to_signed. rewrite msb_ge by lia.
  change (2 ^ (12 - 1)) with 2048.
  destruct (Z.leb_spec 2048 v); lia.
Qed.

(** A word built by the RX statements splits back into its PHY payload. *)
Lemma tx_of_rx_payload (src : phy_stream) :
  payload_ok (p_data src) -> p_data (tx_phy_sink (rx_cdc_sink src)) = p_data src.
Proof.
  intros (Hia & Hqa & Hib & Hqb). unfold phy_width in *.
  pose proof (rx_cdc_sink_fields src) as F. cbv zeta in F. unfold phy_width in F.
  destruct F as (F0 & F1 & F2 & F3).
  rewrite trunc_small in F0, F1, F2, F3 by (try apply sign_extend_range; lia).
  unfold tx_phy_sink. cbn [p_data Z.mul Pos.mul Pos.add]. unfold phy_width.
  rewrite F0, F1, F2, F3, !trunc_sign_extend by assumption.
  now destruct src as [v []].
Qed.

(** The two registers of the edge detector after an [rfic] edge. *)
Lemma frame_after_rfic_step (s : state) (i : rfic_in) :
  rx_frame_d (rfic_step s i) = if rst i then false else rx_frame i.
Proof. unfold rfic_step. now destruct (rst i). Qed.

Lemma rising_after_rfic_step (s : state) (i : rfic_in) :
  rx_frame_rising_d (rfic_step s i)
  = if rst i then false else rx_frame i && negb (rx_frame_d s).
Proof. unfold rfic_step. now destruct (rst i). Qed.

End CMOSRuns.

(** X1.  Two [rfic] edges with the reset released, whatever [sys] edges fall
    between them: the source then offers, as valid, the I and Q words the
    IDDRs gave on the first edge, cut to 12 bits, in ia and qa, and 0 in ib
    and qb.  A sample takes two clock edges from the pins to the source. *)
Theorem cmos_rx_latency (s : state) (i1 i2 : rfic_in) (mid : list tick) :
  rst i1 = false -> rst i2 = false -> forallb is_sys mid = true ->
  source (run s (Rfic i1 :: mid ++ [Rfic i2]))
  = PhyStream true (PhyPayload (trunc 12 (rx_data_i i1)) (trunc 12 (rx_data_q i1)) 0 0).
Proof.
  intros H1 H2 Hmid. rewrite run_cons, run_snoc. cbn [step].
  destruct (sys_ticks_keep_rfic mid (rfic_step s i1) Hmid) as (_ & _ & Ka & Kq & Kb & Kd & _).
  unfold rfic_step at 1. rewrite H2. cbn [source]. unfold next_source. cbn.
  rewrite Ka, Kq, Kb, Kd. unfold rfic_step. rewrite H1. reflexivity.
Qed.

(** X1 on a run from reset, with a control write between the two edges. *)
Lemma cmos_rx_latency_witness :
  source (run reset_state
    (Rfic (RficIn false true 4095 5000 (PhyStream false payload0) false)
     :: [Sys (Control true true)]
     ++ [Rfic (RficIn false false 1 2 (PhyStream false payload0) true)]))
  = PhyStream true (PhyPayload 4095 904 0 0).
Proof.
  exact (cmos_rx_latency reset_state
           (RficIn false true 4095 5000 (PhyStream false payload0) false)
           (RficIn false false 1 2 (PhyStream false payload0) true)
           [Sys (Control true true)] eq_refl eq_refl eq_refl).
Defined.

(** X2.  After any ticks from any state, the source's [valid] is the negation
    of the reset seen by the last [rfic] edge; without any [rfic] edge it is
    what it was.  So [valid] is low only before the first edge and on the
    edge after a reset, and nothing else takes it down. *)
Theorem cmos_valid_is_last_reset (s : state) (ts : list tick) :
  p_valid (source (run s ts))
  = match last_rfic ts with
    | Some i => negb (rst i)
    | None => p_valid (source s)
    end.
Proof. unfold last_rfic. now apply valid_last_rfic. Qed.

(** X3.  Whatever the pins carry, every payload the CMOS PHY offers from
    reset has 12-bit fields; the word the RFIC builds from it for the RX CDC
    carries IA and QA within the signed 12-bit range and IB and QB equal to
    0, and splits back into the same payload. *)
Theorem cmos_rx_word_range (ts : list tick) :
  let src := source (run reset_state ts) in
  let d := d_data (rx_cdc_sink src) in
  payload_ok (p_data src) /\
  (- 2 ^ 11 <= to_signed 16 (slice d 0 16) < 2 ^ 11) /\
  (- 2 ^ 11 <= to_signed 16 (slice d 16 32) < 2 ^ 11) /\
  slice d 32 48 = 0 /\ slice d 48 64 = 0 /\
  p_data (tx_phy_sink (rx_cdc_sink src)) = p_data src.
Proof.
  intros src d. subst d.
  pose proof (fields_in_range_run ts) as Hok. fold src in Hok.
  assert (Hz : ib (p_data src) = 0 /\ qb (p_data src) = 0).
  { apply channel_b_zero_run. cbn. now repeat split. }
  destruct Hz as [Hb Hd].
  split; [ exact Hok | ].
  destruct Hok as (Hia & Hqa & _ & _). unfold phy_width in *.
  pose proof (rx_cdc_sink_fields src) as F. cbv zeta in F. unfold phy_width in F.
  destruct F as (F0 & F1 & F2 & F3).
  rewrite Hb in F2. rewrite Hd in F3.
  rewrite trunc_small in F0, F1 by (try apply sign_extend_range; lia).
  rewrite F0, F1, F2, F3, !sign_extend_signed by assumption.
  split; [ now apply to_signed_12_range | ].
  split; [ now apply to_signed_12_range | ].
  split; [ reflexivity | ].
  split; [ reflexivity | ].
  apply tx_of_rx_payload. apply fields_in_range_run.
Qed.

(** X4.  The rising-edge detector on the frame line never reports an edge on
    two [rfic] edges in a row, reset or not; and with the reset released on
    both, it reports one exactly when the frame line was low on the first and
    high on the second. *)
Theorem rx_frame_rising_not_twice (s : state) (i1 i2 : rfic_in) (mid : list tick) :
  forallb is_sys mid = true ->
  rx_frame_rising_d (run s (Rfic i1 :: mid))
    && rx_frame_rising_d (run s (Rfic i1 :: mid ++ [Rfic i2])) = false /\
  (rst i1 = false -> rst i2 = false ->
   rx_frame_rising_d (run s (Rfic i1 :: mid ++ [Rfic i2]))
   = rx_frame i2 && negb (rx_frame i1)).
Proof.
  intro Hmid. rewrite !run_cons, run_snoc. cbn [step].
  destruct (sys_ticks_keep_rfic mid (rfic_step s i1) Hmid) as (Kf & Kr & _).
  rewrite Kr, !rising_after_rfic_step, Kf, frame_after_rfic_step.
  split.
  - destruct (rst i1), (rst i2), (rx_frame i1), (rx_frame i2), (rx_frame_d s); reflexivity.
  - intros H1 H2. rewrite H1, H2. reflexivity.
Qed.

(** X4 with a frame line that rises between the two edges. *)
Lemma rx_frame_rising_not_twice_witness :
  rx_frame_rising_d (run reset_state
    (Rfic (RficIn false false 0 0 (PhyStream false payload0) false)
     :: [Sys (Control false false)]
     ++ [Rfic (RficIn false true 0 0 (PhyStream false payload0) false)])) = true.
Proof.
  refine (eq_trans (proj2 (rx_frame_rising_not_twice reset_state
           (RficIn false false 0 0 (PhyStream false payload0) false)
           (RficIn false true 0 0 (PhyStream false payload0) false)
           [Sys (Control false false)] eq_refl) eq_refl eq_refl) _).
  reflexivity.
Defined.

(* ================================================================== *)
(** * More on the RFIC core *)

Section CoreFacts.

Lemma slice_land (a b lo hi : Z) :
  0 <= lo <= hi -> slice (Z.land a b) lo hi = Z.land (slice a lo hi) (slice b lo hi).
Proof.
  intro H. apply Z.bits_inj'. intros n Hn.
  rewrite Z.land_spec, !testbit_slice, Z.land_spec by lia.
  destruct (n <? hi - lo), (Z.testbit a (n + lo)), (Z.testbit b (n + lo)); reflexivity.
Qed.

Lemma trunc_land (w a b : Z) :
  0 <= w -> trunc w (Z.land a b) = Z.land (trunc w a) (trunc w b).
Proof.
  intro H. apply Z.bits_inj'. intros n Hn.
  rewrite Z.land_spec, !testbit_trunc, Z.land_spec by lia.
  destruct (n <? w), (Z.testbit a n), (Z.testbit b n); reflexivity.
Qed.

Lemma trunc_idem (w v : Z) : 0 <= w -> trunc w (trunc w v) = trunc w v.
Proof. intro H. apply trunc_small; [ assumption | now apply trunc_range ]. Qed.

(** A TX field reads the low 12 bits of its slice and nothing else. *)
Lemma tx_field_masked (d m lo hi : Z) :
  0 <= lo <= hi -> trunc 12 (slice m lo hi) = Z.ones 12 ->
  trunc 12 (slice (Z.land d m) lo hi) = trunc 12 (slice d lo hi).
Proof.
  intros H Hm. rewrite slice_land, trunc_land, Hm by lia.
  fold (trunc 12 (trunc 12 (slice d lo hi))). apply trunc_idem. lia.
Qed.

(** A one-bit slice is the bit. *)
Lemma slice_bit (v k : Z) : 0 <= k -> slice v k (k + 1) = Z.b2z (Z.testbit v k).
Proof.
  intro Hk. apply Z.bits_inj'. intros n Hn.
  rewrite testbit_slice by lia.
  replace (k + 1 - k) with 1 by lia.
  destruct (Z.eq_dec n 0) as [-> | Hne].
  - cbn [Z.ltb Z.compare andb Z.add]. now rewrite Z.b2z_bit0.
  - replace (n <? 1) with false by (symmetry; apply Z.ltb_ge; lia).
    cbn [andb]. destruct (Z.testbit v k); cbn [Z.b2z]; symmetry.
    + apply Z.bits_above_log2; cbn; lia.
    + apply Z.bits_0.
Qed.

Lemma b2z_inj (a b : bool) : Z.b2z a = Z.b2z b -> a = b.
Proof. destruct a, b; cbn; congruence. Qed.

(** The generator runs freely over a stretch in which it is neither reset
    nor disabled. *)
Lemma prbs_generator_free_run {G : PRBSGenerator} (post : list (bool * bool * bool))
  (g : gen_state) :
  forallb prbs_running post = true ->
  prbs_generator_run g post = fold_left gen_next (map snd post) g.
Proof.
  revert g. unfold prbs_generator_run.
  induction post as [ | y r IH ]; intros g H; [ reflexivity | ].
  cbn [forallb] in H. apply andb_true_iff in H. destruct H as [Hy Hr].
  cbn [fold_left map]. rewrite IH by exact Hr. f_equal.
  unfold prbs_running in Hy. apply andb_true_iff in Hy. destruct Hy as [Hrst Hen].
  apply negb_true_iff in Hrst.
  unfold prbs_generator_step, prbs_generator_reset, prbs_generator_ce.
  now rewrite Hrst, Hen.
Qed.

End CoreFacts.

(** X5.  The TX side never looks at the upper four bits of a 16-bit field:
    a word leaving the TX CDC and the same word with bits 12 to 15 of every
    field cleared drive [phy.sink] alike, and every field of [phy.sink] is a
    12-bit value whatever the word. *)
Theorem tx_ignores_upper_nibbles (tx : dma_stream) :
  tx_phy_sink (DmaStream (d_valid tx) (Z.land (d_data tx) 0x0FFF0FFF0FFF0FFF))
  = tx_phy_sink tx /\
  payload_ok (p_data (tx_phy_sink tx)).
Proof.
  split.
  - unfold tx_phy_sink, phy_width. cbn [d_valid d_data Z.mul Pos.mul Pos.add].
    now rewrite !tx_field_masked by (try reflexivity; lia).
  - unfold payload_ok, tx_phy_sink, phy_width. cbn [p_data ia qa ib qb].
    repeat split; apply trunc_range; lia.
Qed.

(** X6.  The RX statements lose nothing: two PHY streams with 12-bit fields
    that give the RX CDC the same valid and the same word are the same. *)
Theorem rx_cdc_sink_injective (a b : phy_stream) :
  payload_ok (p_data a) -> payload_ok (p_data b) ->
  rx_cdc_sink a = rx_cdc_sink b -> a = b.
Proof.
  intros Ha Hb E.
  assert (Ev : p_valid a = p_valid b) by exact (f_equal d_valid E).
  assert (Ep : p_data a = p_data b).
  { rewrite <- (tx_of_rx_payload a Ha), <- (tx_of_rx_payload b Hb). now rewrite E. }
  destruct a, b. cbn in Ev, Ep. now subst.
Qed.

(** X6 at a payload with both signs. *)
Lemma rx_cdc_sink_injective_witness :
  PhyStream true (PhyPayload 4095 1 2048 2047)
  = PhyStream true (PhyPayload 4095 1 2048 2047).
Proof.
  apply rx_cdc_sink_injective.
  - vm_compute; intuition discriminate.
  - vm_compute; intuition discriminate.
  - reflexivity.
Defined.

(** X8.  Once the generator has been reset or disabled on one [rfic] edge, its
    state after a stretch of enabled edges depends on the [phy.sink.ready]
    values of that stretch alone: it is the state reached from reset, so a
    self-test that is switched off and on again restarts its sequence,
    whatever was sent before. *)
Theorem prbs_generator_restarts {G : PRBSGenerator} (g : gen_state)
  (pre post : list (bool * bool * bool)) (x : bool * bool * bool) :
  prbs_running x = false ->
  forallb prbs_running post = true ->
  prbs_generator_run g (pre ++ x :: post) = fold_left gen_next (map snd post) gen_reset.
Proof.
  intros Hx Hpost.
  assert (E : prbs_generator_run g (pre ++ x :: post)
              = prbs_generator_run
                  (prbs_generator_step (prbs_generator_run g pre)
                     (fst (fst x)) (snd (fst x)) (snd x)) post).
  { unfold prbs_generator_run. now rewrite fold_left_app. }
  rewrite E, prbs_generator_free_run by exact Hpost. f_equal.
  unfold prbs_running in Hx. unfold prbs_generator_step, prbs_generator_reset.
  destruct (fst (fst x)), (snd (fst x)); try reflexivity; discriminate.
Qed.

(** X8 on the counting generator: three enabled edges, two of them with
    [ready], after five edges of an earlier run. *)
Lemma prbs_generator_restarts_witness :
  @prbs_generator_run counting_generator 0
    (repeat (false, true, true) 5 ++ (false, false, true)
     :: [(false, true, true); (false, true, false); (false, true, true)]) = 2.
Proof.
  exact (@prbs_generator_restarts counting_generator 0
           (repeat (false, true, true) 5)
           [(false, true, true); (false, true, false); (false, true, true)]
           (false, false, true) eq_refl eq_refl).
Defined.

(** X9.  The pad registers loaded from [_config] are single bits and depend
    on bits 0, 1, 4 and 5 of the written word only: two words drive the pads
    alike exactly when they agree on those four bits. *)
Theorem config_sync_bits (v v' : Z) :
  Config.config_sync v
  = Config.ConfigPads (Z.b2z (Z.testbit v 0)) (Z.b2z (Z.testbit v 1))
                      (Z.b2z (Z.testbit v 4)) (Z.b2z (Z.testbit v 5)) /\
  (Config.config_sync v = Config.config_sync v' <-> Z.land v 0x33 = Z.land v' 0x33).
Proof.
  assert (E : forall w, Config.config_sync w
    = Config.ConfigPads (Z.b2z (Z.testbit w 0)) (Z.b2z (Z.testbit w 1))
                        (Z.b2z (Z.testbit w 4)) (Z.b2z (Z.testbit w 5))).
  { intro w. unfold Config.config_sync, Config.csr_field.
    now rewrite !slice_bit by lia. }
  split; [ apply E | ].
  rewrite !E. split.
  - intro H.
    assert (H0 : Z.testbit v 0 = Z.testbit v' 0)
      by (apply b2z_inj; exact (f_equal Config.rst_n H)).
    assert (H1 : Z.testbit v 1 = Z.testbit v' 1)
      by (apply b2z_inj; exact (f_equal Config.enable H)).
    assert (H4 : Z.testbit v 4 = Z.testbit v' 4)
      by (apply b2z_inj; exact (f_equal Config.txnrx H)).
    assert (H5 : Z.testbit v 5 = Z.testbit v' 5)
      by (apply b2z_inj; exact (f_equal Config.en_agc H)).
    apply Z.bits_inj'. intros n Hn. rewrite !Z.land_spec.
    destruct (Z.eq_dec n 0) as [-> | N0]; [ now rewrite H0 | ].
    destruct (Z.eq_dec n 1) as [-> | N1]; [ now rewrite H1 | ].
    destruct (Z.eq_dec n 4) as [-> | N4]; [ now rewrite H4 | ].
    destruct (Z.eq_dec n 5) as [-> | N5]; [ now rewrite H5 | ].
    assert (Hm : Z.testbit 0x33 n = false).
    { destruct (Z.eq_dec n 2) as [-> | N2]; [ reflexivity | ].
      destruct (Z.eq_dec n 3) as [-> | N3]; [ reflexivity | ].
      apply Z.bits_above_log2; cbn; lia. }
    now rewrite Hm, !andb_false_r.
  - intro H.
    assert (B : forall k, Z.testbit 0x33 k = true -> Z.testbit v k = Z.testbit v' k).
    { intros k Hk. pose proof (f_equal (fun w => Z.testbit w k) H) as Hb.
      cbn beta in Hb. rewrite !Z.land_spec, Hk, !andb_true_r in Hb. exact Hb. }
    now rewrite (B 0), (B 1), (B 4), (B 5) by reflexivity.
Qed.

(* ================================================================== *)
(** * spi_eth_test.py *)

Section ScriptFacts.

Lemma slice_div_mod (v lo hi : Z) :
  0 <= lo <= hi -> slice v lo hi = (v / 2 ^ lo) mod 2 ^ (hi - lo).
Proof.
  intro H. unfold slice. rewrite Z.land_ones, Z.shiftr_div_pow2 by lia. reflexivity.
Qed.

Lemma mosi0_value (reg : Z) : SpiEthTest.mosi0 reg = (reg / 2 ^ 8) mod 2 ^ 7.
Proof.
  unfold SpiEthTest.mosi0. rewrite Z.shiftl_0_l, Z.lor_0_l.
  change 0x7f with (Z.ones 7). rewrite Z.land_ones, Z.shiftr_div_pow2 by lia.
  reflexivity.
Qed.

Lemma mosi1_value (reg : Z) : SpiEthTest.mosi1 reg = reg mod 2 ^ 8.
Proof.
  unfold SpiEthTest.mosi1. rewrite Z.shiftr_0_r.
  change 0xff with (Z.ones 8). now rewrite Z.land_ones by lia.
Qed.

Lemma spi_mosi_word_value (reg : Z) :
  SpiEthTest.spi_mosi_word reg = (reg mod 2 ^ 15) * 2 ^ 8.
Proof.
  unfold SpiEthTest.spi_mosi_word, SpiEthTest.mosi2.
  rewrite Z.lor_0_r, Z.lor_comm, mosi0_value, mosi1_value.
  assert (Hb : 0 <= reg mod 2 ^ 8 < 2 ^ 8) by (apply Z.mod_pos_bound; lia).
  assert (Hs : Z.shiftl (reg mod 2 ^ 8) 8 = (reg mod 2 ^ 8) * 2 ^ 8)
    by (apply Z.shiftl_mul_pow2; lia).
  rewrite <- (trunc_small 16 (Z.shiftl (reg mod 2 ^ 8) 8)) by (rewrite ?Hs; lia).
  fold (Cat 16 (Z.shiftl (reg mod 2 ^ 8) 8) ((reg / 2 ^ 8) mod 2 ^ 7)).
  rewrite Cat_add, Hs by (rewrite ?Hs; lia).
  change (2 ^ 8) with 256. change (2 ^ 7) with 128.
  change (2 ^ 15) with 32768. change (2 ^ 16) with 65536.
  Z.div_mod_to_equations. lia.
Qed.

(** [chr] gives the terminator for code point 0 only. *)
Lemma chr_zero (b : Z) : 0 <= b < 256 -> SpiEthTest.chr b = zero -> b = 0.
Proof.
  intros Hb H. unfold SpiEthTest.chr in H.
  apply (f_equal N_of_ascii) in H.
  rewrite N_ascii_embedding in H by lia.
  change (N_of_ascii zero) with 0%N in H. lia.
Qed.

Lemma byte_range (x : Z) : 0 <= Z.land x 0xff < 256.
Proof.
  change 0xff with (Z.ones 8). rewrite Z.land_ones by lia.
  apply Z.mod_pos_bound. lia.
Qed.

(** The loop from index [i] on with [n] rounds left. *)
Lemma read_identifier_spec (read : Z -> Z) (base : Z) (n : nat) (i : Z) :
  let s := SpiEthTest.read_identifier read base i n in
  (String.length s <= n)%nat /\
  ((1 <= n)%nat -> (1 <= String.length s)%nat) /\
  (forall k, (k < String.length s)%nat ->
     String.get k s
     = Some (SpiEthTest.chr (Z.land (read (base + 4 * (i + Z.of_nat k))) 0xff))) /\
  (forall k, (S k < String.length s)%nat ->
     Z.land (read (base + 4 * (i + Z.of_nat k))) 0xff <> 0) /\
  ((String.length s < n)%nat ->
     Z.land (read (base + 4 * (i + Z.of_nat (String.length s - 1)))) 0xff = 0).
Proof.
  revert i. induction n as [ | n IH ]; intro i; cbv zeta.
  - cbn. repeat split; intros; lia.
  - cbn [SpiEthTest.read_identifier].
    set (b := Z.land (read (base + 4 * i)) 0xff).
    pose proof (byte_range (read (base + 4 * i))) as Hb. fold b in Hb.
    destruct (Ascii.eqb_spec (SpiEthTest.chr b) zero) as [Hz | Hz].
    + apply chr_zero in Hz; [ | exact Hb ]. cbn [String.length].
      repeat split; try lia.
      * intros k Hk. assert (k = 0)%nat by lia. subst k. cbn [String.get].
        replace (i + Z.of_nat 0) with i by lia. reflexivity.
      * intros _. cbn. replace (i + 0) with i by lia. exact Hz.
    + specialize (IH (i + 1)). cbv zeta in IH.
      set (r := SpiEthTest.read_identifier read base (i + 1) n) in *.
      destruct IH as (L1 & L2 & G & Z0 & T). cbn [String.length].
      repeat split; try lia.
      * intros k Hk. destruct k as [ | k ]; cbn [String.get].
        -- replace (i + Z.of_nat 0) with i by lia. reflexivity.
        -- rewrite G by lia. do 4 f_equal. lia.
      * intros k Hk. destruct k as [ | k ].
        -- replace (i + Z.of_nat 0) with i by lia. fold b.
           intro E. apply Hz. now rewrite E.
        -- replace (i + Z.of_nat (S k)) with (i + 1 + Z.of_nat k) by lia.
           apply Z0. lia.
      * intro Hlt. assert (Hr : (String.length r < n)%nat) by lia.
        specialize (T Hr). assert (1 <= n)%nat by lia. specialize (L2 H).
        replace (i + Z.of_nat (S (String.length r) - 1))
          with (i + 1 + Z.of_nat (String.length r - 1)) by lia.
        exact T.
Qed.

End ScriptFacts.

(** X10.  The word the script writes to [ad9361_spi_mosi] for a register
    [reg]: every byte stored in [mosi] fits a byte; the word is the low 15
    bits of [reg] shifted left by 8, so bit 23, the read/write bit, is 0
    (a read), bits 8 to 22 are the address cut to 15 bits and the data byte
    is 0.  An address of 15 bits or less is carried whole. *)
Theorem spi_mosi_word_frame (reg : Z) :
  let w := SpiEthTest.spi_mosi_word reg in
  (0 <= SpiEthTest.mosi0 reg < 2 ^ 8 /\ 0 <= SpiEthTest.mosi1 reg < 2 ^ 8) /\
  w = (reg mod 2 ^ 15) * 2 ^ 8 /\
  Z.testbit w 23 = false /\
  slice w 8 23 = reg mod 2 ^ 15 /\
  slice w 0 8 = 0 /\
  (0 <= reg < 2 ^ 15 -> slice w 8 23 = reg).
Proof.
  cbv zeta. rewrite mosi0_value, mosi1_value, spi_mosi_word_value.
  assert (Hr : 0 <= reg mod 2 ^ 15 < 2 ^ 15) by (apply Z.mod_pos_bound; lia).
  assert (H7 : 0 <= (reg / 2 ^ 8) mod 2 ^ 7 < 2 ^ 7) by (apply Z.mod_pos_bound; lia).
  assert (H8 : 0 <= reg mod 2 ^ 8 < 2 ^ 8) by (apply Z.mod_pos_bound; lia).
  assert (S1 : slice (reg mod 2 ^ 15 * 2 ^ 8) 8 23 = reg mod 2 ^ 15).
  { rewrite slice_div_mod by lia. rewrite Z.div_mul by lia.
    replace (23 - 8) with 15 by lia. now apply Z.mod_small. }
  split; [ lia | ].
  split; [ reflexivity | ].
  split.
  - change 23 with (24 - 1). fold (msb 24 (reg mod 2 ^ 15 * 2 ^ 8)).
    rewrite msb_ge by lia. apply Z.leb_gt. lia.
  - split; [ exact S1 | ]. split.
    + rewrite slice_div_mod by lia. rewrite Z.pow_0_r, Z.div_1_r.
      replace (8 - 0) with 8 by lia. now apply Z.mod_mul.
    + intro H. rewrite S1. now apply Z.mod_small.
Qed.

(** X11.  The identifier the script prints: between 1 and 256 characters,
    character [k] being the low byte of the word read at [identifier_mem +
    4 * k]; no character before the last is NUL; and when fewer than 256
    characters were read the last one is the NUL terminator, which is part of
    the string.  Without a NUL among the first 256 bytes the string has 256
    characters and no terminator. *)
Theorem fpga_identifier_spec (read : Z -> Z) (identifier_mem : Z) :
  let s := SpiEthTest.fpga_identifier read identifier_mem in
  (1 <= String.length s <= 256)%nat /\
  (forall k, (k < String.length s)%nat ->
     String.get k s
     = Some (SpiEthTest.chr (Z.land (read (identifier_mem + 4 * Z.of_nat k)) 0xff))) /\
  (forall k, (S k < String.length s)%nat ->
     Z.land (read (identifier_mem + 4 * Z.of_nat k)) 0xff <> 0) /\
  ((String.length s < 256)%nat ->
     Z.land (read (identifier_mem + 4 * Z.of_nat (String.length s - 1))) 0xff = 0) /\
  ((forall k, (k < 256)%nat ->
      Z.land (read (identifier_mem + 4 * Z.of_nat k)) 0xff <> 0) ->
   String.length s = 256%nat).
Proof.
  intro s. unfold SpiEthTest.fpga_identifier in s.
  pose proof (read_identifier_spec read identifier_mem 256 0) as H.
  cbv zeta in H. fold s in H. destruct H as (L1 & L2 & G & Z0 & T).
  specialize (L2 ltac:(lia)).
  split; [ lia | ].
  split; [ intros k Hk; rewrite G by exact Hk; do 4 f_equal; lia | ].
  split; [ intros k Hk; replace (Z.of_nat k) with (0 + Z.of_nat k) by lia; now apply Z0 | ].
  split.
  - intro Hlt. specialize (T Hlt).
    replace (Z.of_nat (String.length s - 1)) with (0 + Z.of_nat (String.length s - 1)) by lia.
    exact T.
  - intro Hnz. destruct (Nat.eq_dec (String.length s) 256) as [E | NE]; [ exact E | ].
    exfalso. assert (Hlt : (String.length s < 256)%nat) by lia.
    apply (Hnz (String.length s - 1)%nat); [ lia | ].
    specialize (T Hlt).
    replace (Z.of_nat (String.length s - 1)) with (0 + Z.of_nat (String.length s - 1)) by lia.
    exact T.
Qed.

(* ================================================================== *)
(** * litex_m2sdr.py: the CSR map *)

Section DictFacts.

(** A key that is found is an item of the dict. *)
Lemma dict_get_in (d : SoC.dict) (k : string) (v : Z) :
  SoC.dict_get d k = Some v -> In (k, v) d.
Proof.
  induction d as [ | [k' v'] r IH ]; cbn [SoC.dict_get]; [ discriminate | ].
  destruct (String.eqb_spec k' k) as [-> | Hne]; intro H.
  - injection H as ->. now left.
  - right. now apply IH.
Qed.

(** With all values distinct, a value belongs to one key. *)
Lemma distinct_values_one_key (d : SoC.dict) (a b : string) (v : Z) :
  NoDup (map snd d) -> In (a, v) d -> In (b, v) d -> a = b.
Proof.
  induction d as [ | [k' v'] r IH ]; cbn [map snd]; intros Hn Ha Hb; [ contradiction | ].
  inversion Hn as [ | ? ? Hnotin Hr ]; subst.
  destruct Ha as [Ha | Ha], Hb as [Hb | Hb].
  - congruence.
  - injection Ha as -> ->. exfalso. apply Hnotin.
    apply (in_map snd) in Hb. exact Hb.
  - injection Hb as -> ->. exfalso. apply Hnotin.
    apply (in_map snd) in Ha. exact Ha.
  - now apply IH.
Qed.

Lemma csr_map_slots_value :
  map snd SoC.csr_map
  = [0; 1; 2; 6; 4; 5; 7; 10; 11; 12; 14; 15; 16; 20; 21; 22; 23; 24; 30; 31].
Proof. reflexivity. Qed.

Lemma csr_map_slots_distinct : NoDup (map snd SoC.csr_map).
Proof.
  rewrite csr_map_slots_value.
  repeat (constructor; [ cbn [In]; intuition lia | ]). constructor.
Qed.

End DictFacts.

(** X12.  The CSR map the display of lines 93-126 builds: it has 20 names;
    the key "flash", given twice, keeps the second location, 6, and no name
    is left at location 3; and no two names share a location. *)
Theorem csr_map_locations :
  List.length SoC.csr_map = 20%nat /\
  SoC.dict_get SoC.csr_map "flash" = Some 6 /\
  (forall name, SoC.dict_get SoC.csr_map name <> Some 3) /\
  (forall n1 n2 slot,
     SoC.dict_get SoC.csr_map n1 = Some slot ->
     SoC.dict_get SoC.csr_map n2 = Some slot -> n1 = n2).
Proof.
  split; [ reflexivity | ].
  split; [ reflexivity | ].
  split.
  - intros name H. apply dict_get_in in H. apply (in_map snd) in H.
    rewrite csr_map_slots_value in H. cbn [snd In] in H. intuition lia.
  - intros n1 n2 slot H1 H2.
    apply (distinct_values_one_key SoC.csr_map n1 n2 slot).
    + apply csr_map_slots_distinct.
    + now apply dict_get_in.
    + now apply dict_get_in.
Qed.

(* ================================================================== *)
(** * More on the AGC counters *)

Section AGCLanes.
Context {A : SaturationCounter}.

Lemma slice_range (v lo hi : Z) : 0 <= lo <= hi -> 0 <= slice v lo hi < 2 ^ (hi - lo).
Proof.
  intro H. rewrite slice_div_mod by assumption.
  apply Z.mod_pos_bound. apply Z.pow_pos_nonneg; lia.
Qed.

(** A mask that is all ones over a slice does not change the slice. *)
Lemma slice_masked (d m lo hi : Z) :
  0 <= lo <= hi -> slice m lo hi = Z.ones (hi - lo) ->
  slice (Z.land d m) lo hi = slice d lo hi.
Proof.
  intros H Hm. rewrite slice_land, Hm by assumption.
  fold (trunc (hi - lo) (slice d lo hi)).
  apply trunc_small; [ lia | now apply slice_range ].
Qed.

Lemma iqs_rx1_masked (v : bool) (d : Z) :
  iqs_rx1 (DmaStream v (Z.land d 0xFFFFFFFF)) = iqs_rx1 (DmaStream v d).
Proof.
  unfold iqs_rx1. cbn [d_data Z.mul Pos.mul Pos.add].
  now rewrite !slice_masked by (try reflexivity; lia).
Qed.

Lemma iqs_rx2_masked (v : bool) (d : Z) :
  iqs_rx2 (DmaStream v (Z.land d 0xFFFFFFFF00000000)) = iqs_rx2 (DmaStream v d).
Proof.
  unfold iqs_rx2. cbn [d_data Z.mul Pos.mul Pos.add].
  now rewrite !slice_masked by (try reflexivity; lia).
Qed.

Lemma agc_rx1_masked (script : list (dma_stream * bool)) (s s' : agc) :
  agc_count_rx1_low s = agc_count_rx1_low s' ->
  agc_count_rx1_high s = agc_count_rx1_high s' ->
  agc_count_rx1_low (agc_run s (mask_words 0xFFFFFFFF script))
    = agc_count_rx1_low (agc_run s' script) /\
  agc_count_rx1_high (agc_run s (mask_words 0xFFFFFFFF script))
    = agc_count_rx1_high (agc_run s' script).
Proof.
  revert s s'. unfold agc_run, mask_words.
  induction script as [ | [[v d] r] rest IH ]; intros s s' Hl Hh; [ now split | ].
  cbn [map fold_left]. apply IH; unfold add_agc_step, agc_ce;
    cbn [fst snd d_valid d_data agc_count_rx1_low agc_count_rx1_high];
    rewrite iqs_rx1_masked; congruence.
Qed.

Lemma agc_rx2_masked (script : list (dma_stream * bool)) (s s' : agc) :
  agc_count_rx2_low s = agc_count_rx2_low s' ->
  agc_count_rx2_high s = agc_count_rx2_high s' ->
  agc_count_rx2_low (agc_run s (mask_words 0xFFFFFFFF00000000 script))
    = agc_count_rx2_low (agc_run s' script) /\
  agc_count_rx2_high (agc_run s (mask_words 0xFFFFFFFF00000000 script))
    = agc_count_rx2_high (agc_run s' script).
Proof.
  revert s s'. unfold agc_run, mask_words.
  induction script as [ | [[v d] r] rest IH ]; intros s s' Hl Hh; [ now split | ].
  cbn [map fold_left]. apply IH; unfold add_agc_step, agc_ce;
    cbn [fst snd d_valid d_data agc_count_rx2_low agc_count_rx2_high];
    rewrite iqs_rx2_masked; congruence.
Qed.

End AGCLanes.

(** X13.  Whatever the counter computes from [ce] and [iqs], the two rx1
    counters see bits 0 to 31 of the words only and the two rx2 counters bits
    32 to 63 only: over any script, clearing the other half of every word
    leaves them in the same state. *)
Theorem agc_pairs_independent {A : SaturationCounter} (s : agc)
  (script : list (dma_stream * bool)) :
  agc_count_rx1_low (agc_run s (mask_words 0xFFFFFFFF script))
    = agc_count_rx1_low (agc_run s script) /\
  agc_count_rx1_high (agc_run s (mask_words 0xFFFFFFFF script))
    = agc_count_rx1_high (agc_run s script) /\
  agc_count_rx2_low (agc_run s (mask_words 0xFFFFFFFF00000000 script))
    = agc_count_rx2_low (agc_run s script) /\
  agc_count_rx2_high (agc_run s (mask_words 0xFFFFFFFF00000000 script))
    = agc_count_rx2_high (agc_run s script).
Proof.
  destruct (agc_rx1_masked script s s eq_refl eq_refl) as [H1 H2].
  destruct (agc_rx2_masked script s s eq_refl eq_refl) as [H3 H4].
  now repeat split.
Qed.
